(** * ryzom: the websocket consumer (ryzom/consumers.py)

    A shallow embedding of [Consumer]: the message dispatcher [receive],
    its four request handlers, and the channel-layer push handler
    [handle_ddp].  Python values are a small inductive type, exceptions are
    an error monad, and every outward call the consumer makes (a message
    sent on the socket, a server method, a view hook, a model call) is
    appended to a trace, so that "sends exactly one response" and "calls
    init before save" are statements about that trace. *)

From Stdlib Require Import ZArith String List Bool Floats.SpecFloat.
From stdpp Require Import gmap strings.
Import ListNotations.

Local Open Scope string_scope.
Local Open Scope Z_scope.
Local Open Scope list_scope.

(** ** Python values *)

(** What [json.loads] produces and [json.dumps] accepts.  A dict is kept as
    an association list in insertion order, which is also the order
    [json.dumps] writes the keys in. *)
#[local] Unset Elimination Schemes.
Inductive value : Type :=
| VNone
| VBool (b : bool)
| VInt (n : Z)
| VFloat (x : spec_float)
| VStr (s : string)
| VList (items : list value)
| VDict (items : list (string * value)).
#[local] Set Elimination Schemes.

(** [bool(v)]: what [if v] and [not v] test. *)
Definition truthy (v : value) : bool :=
  match v with
  | VNone => false
  | VBool b => b
  | VInt n => negb (n =? 0)
  | VFloat (S754_zero _) => false
  | VFloat _ => true
  | VStr s => negb (String.eqb s "")
  | VList items => match items with [] => false | _ => true end
  | VDict items => match items with [] => false | _ => true end
  end.

(** [v == s] for a string literal [s]. *)
Definition eq_str (v : value) (s : string) : bool :=
  match v with
  | VStr s' => String.eqb s' s
  | _ => false
  end.

Inductive exn : Type :=
| KeyError (key : value)
| TypeError
| AttributeError
| DoesNotExist
| Failure (what : string).

Inductive outcome (A : Type) : Type :=
| Return (a : A)
| Raise (e : exn).
Arguments Return {A} a.
Arguments Raise {A} e.

Module Dict.

Fixpoint get (k : string) (d : list (string * value)) : option value :=
  match d with
  | [] => None
  | (k', v) :: rest => if String.eqb k' k then Some v else get k rest
  end.

Definition mem (k : string) (d : list (string * value)) : bool :=
  match get k d with Some _ => true | None => false end.

(** [d[k] = v]: an existing key keeps its position. *)
Fixpoint set (k : string) (v : value) (d : list (string * value))
  : list (string * value) :=
  match d with
  | [] => [(k, v)]
  | (k', v') :: rest =>
      if String.eqb k' k then (k', v) :: rest else (k', v') :: set k v rest
  end.

(** [d.update(other)]. *)
Definition update (d other : list (string * value)) : list (string * value) :=
  fold_left (fun acc kv => set (fst kv) (snd kv) acc) other d.

End Dict.

(** [needle in hay] on two strings. *)
Fixpoint substring_of (needle hay : string) : bool :=
  String.prefix needle hay
  || match hay with
     | EmptyString => false
     | String _ rest => substring_of needle rest
     end.

(** [v[k]] for a string key [k]. *)
Definition getitem (v : value) (k : string) : outcome value :=
  match v with
  | VDict d =>
      match Dict.get k d with
      | Some x => Return x
      | None => Raise (KeyError (VStr k))
      end
  | _ => Raise TypeError
  end.

(** [v.get(k, None)]: only a dict has the method. *)
Definition dict_get (v : value) (k : string) : outcome value :=
  match v with
  | VDict d => Return (match Dict.get k d with Some x => x | None => VNone end)
  | _ => Raise AttributeError
  end.

(** [k in v] for a string key [k]: key membership on a dict, element
    membership on a list, substring on a string, [TypeError] otherwise. *)
Definition contains (k : string) (v : value) : outcome bool :=
  match v with
  | VDict d => Return (Dict.mem k d)
  | VList items => Return (existsb (fun x => eq_str x k) items)
  | VStr s => Return (substring_of k s)
  | _ => Raise TypeError
  end.

(** ** The models the consumer uses (ryzom.models) *)

Record Client : Type := {
  client_channel : string;
  client_user : option Z
}.

Record Publication : Type := {
  pub_name : string;
  pub_matching : list value
}.

Record Subscription : Type := {
  sub_id : option Z;
  sub_publication : Publication;
  sub_parent : value;
  sub_client : Client
}.

(** Modelled from the spec: ryzom/models.py is not among the sources.  A
    Connection is identified by its channel token and a Publication by its
    unique name, so both tables are maps on that key; Subscription rows get
    a generated id.  [layer] is the channel layer: the [handle.ddp] events
    sent to a channel and not yet delivered. *)
Record Store : Type := {
  clients : gmap string Client;
  publications : gmap string Publication;
  subscriptions : list Subscription;
  next_id : Z;
  layer : list (string * value)
}.

(** Modelled from the spec: [Model.objects.get(key=k)] on a table keyed by
    [k].  The lookup fails hard when there is no row: it raises, it does
    not return [None]. *)
Definition objects_get {A : Type} (table : gmap string A) (k : string)
  : outcome A :=
  match table !! k with
  | Some row => Return row
  | None => Raise DoesNotExist
  end.

(** The [handle.ddp] event that announces one record of a publication. *)
Definition inserted_event (instance : value) : value :=
  VDict [("type", VStr "handle.ddp");
         ("params", VDict [("type", VStr "inserted"); ("instance", instance)])].

(** Modelled from the spec: [Subscriptions.init] is in ryzom/models.py,
    which is not among the sources.  It does the first full scan of the
    publication and emits one [inserted] event per matching record,
    addressed to the subscription's connection. *)
Definition Subscriptions_init (sub : Subscription) (s : Store) : Store :=
  {| clients := clients s;
     publications := publications s;
     subscriptions := subscriptions s;
     next_id := next_id s;
     layer := layer s ++ map (fun r => (client_channel (sub_client sub),
                                        inserted_event r))
                             (pub_matching (sub_publication sub)) |}.

(** Modelled from the spec: [Subscriptions.save] (the ORM's) persists the
    row under a newly generated id and sets that id on the object. *)
Definition Subscriptions_save (sub : Subscription) (s : Store)
  : Subscription * Store :=
  let saved := {| sub_id := Some (next_id s);
                  sub_publication := sub_publication sub;
                  sub_parent := sub_parent sub;
                  sub_client := sub_client sub |} in
  (saved,
   {| clients := clients s;
      publications := publications s;
      subscriptions := subscriptions s ++ [saved];
      next_id := next_id s + 1;
      layer := layer s |}).

(** [sub.id] as it goes into a response. *)
Definition id_value (sub : Subscription) : value :=
  match sub_id sub with
  | Some n => VInt n
  | None => VNone
  end.

(** ** What the consumer is configured with *)

(** A hook of a view: it runs on the instance and the store and leaves both
    possibly changed, also when it raises. *)
Definition hook (View A : Type) : Type :=
  View -> Store -> outcome A * View * Store.

(** An entry of [ddp_urlpatterns]. *)
Record Route (ViewClass : Type) : Type := {
  pattern : string -> bool;
  callback : ViewClass
}.
Arguments pattern {ViewClass} r _.
Arguments callback {ViewClass} r.

(** An attribute of [server_methods]. *)
Definition Method : Type := value -> Store -> outcome value * Store.

(** ** Envelopes *)

Definition envelope (_id : value) (type : string) (params : value) : value :=
  VDict [("_id", _id); ("type", VStr type); ("params", params)].

Definition error_params (name message : string) : value :=
  VDict [("name", VStr name); ("message", VStr message)].

(** The double-quote character, and the message ["params" key not found]
    with its quotes. *)
Definition dquote : string :=
  String (Ascii.Ascii false true false false false true false false) "".

Definition bad_format_message : string :=
  dquote +:+ "params" +:+ dquote +:+ " key not found".

(** The response to a request whose handler missed a key. *)
Definition bad_format (_id : value) : value :=
  envelope _id "Error" (error_params "Bad format" bad_format_message).

(** The DDP envelope a push is turned into. *)
Definition ddp (type : string) (params : value) : value :=
  VDict [("type", VStr "DDP");
         ("params", VDict [("type", VStr type); ("params", params)])].

(** An instance of a class that defines neither [__bool__] nor [__len__]
    is true: this is what [if cview] and [if not client] see. *)
Definition instance_truthy {A : Type} (_ : A) : bool := true.

(** ** Traces and state *)

Section Monad.

Context {View ViewClass : Type}.

(** What the consumer does, in the order it does it: [self.send] of the
    dump of a value, [print] of a caught exception, the call [func(data)]
    of a request handler, the call of a server method, the calls of the
    view's hooks and constructor, and [sub.init()] and [sub.save()]. *)
Inductive event : Type :=
| Send (msg : value)
| Printed (e : exn)
| Dispatch (msg_type : value)
| CallMethod (name arg : value)
| CallOnurl (to_url : value)
| CallOndestroy
| CallNew (cls : ViewClass) (channel : string)
| CallOncreate (to_url : value)
| CallRender
| CallInit (sub : Subscription)
| CallSave (sub : Subscription).

(** The consumer ([self.view]) with the store it works on and the trace of
    what it has done. *)

Record state : Type := {
  store : Store;
  view : option View;
  trace : list event
}.

(** A method of the consumer: it returns or raises, and leaves a state in
    both cases. *)
Definition M (A : Type) : Type := state -> outcome A * state.

Definition ret {A : Type} (a : A) : M A := fun st => (Return a, st).

Definition bind {A B : Type} (c : M A) (k : A -> M B) : M B :=
  fun st =>
    match c st with
    | (Return a, st') => k a st'
    | (Raise e, st') => (Raise e, st')
    end.

Definition lift {A : Type} (o : outcome A) : M A := fun st => (o, st).

Definition emit (e : event) : M unit :=
  fun st =>
    (Return tt,
     {| store := store st; view := view st; trace := trace st ++ [e] |}).

(** [self.send(json.dumps(msg))]. *)
Definition send (msg : value) : M unit := emit (Send msg).

Definition get_store : M Store := fun st => (Return (store st), st).

Definition with_store {A : Type} (f : Store -> outcome A * Store) : M A :=
  fun st =>
    let '(r, s') := f (store st) in
    (r, {| store := s'; view := view st; trace := trace st |}).

(** [getattr(self, 'view', None)]. *)
Definition get_view : M (option View) := fun st => (Return (view st), st).

(** [self.view = v]. *)
Definition set_view (v : View) : M unit :=
  fun st =>
    (Return tt, {| store := store st; view := Some v; trace := trace st |}).

(** A hook called on the object [self.view] refers to: [cview] and
    [self.view] are the same object, so what the hook does to it is
    seen through both. *)
Definition call_view {A : Type} (h : hook View A) : M A :=
  fun st =>
    match view st with
    | None => (Raise AttributeError, st)
    | Some v =>
        let '(r, v', s') := h v (store st) in
        (r, {| store := s'; view := Some v'; trace := trace st |})
    end.

(** [try: c  except KeyError as e: h e]. *)
Definition except_KeyError (c : M unit) (h : exn -> M unit) : M unit :=
  fun st =>
    match c st with
    | (Raise (KeyError k), st') => h (KeyError k) st'
    | r => r
    end.

(** The messages the trace is read for. *)
Definition sent (t : list event) : list value :=
  flat_map (fun e => match e with Send msg => [msg] | _ => [] end) t.

(** [quiet c]: running [c] sends nothing, however it ends.
    [unanswered_on_raise c]: if [c] raises, it has sent nothing. *)
Definition quiet {A : Type} (c : M A) : Prop :=
  forall st, sent (trace (snd (c st))) = sent (trace st).

Definition unanswered_on_raise {A : Type} (c : M A) : Prop :=
  forall st e st', c st = (Raise e, st') -> sent (trace st') = sent (trace st).

(** [responds _id c]: however [c] ends, it has sent nothing, or it has
    returned having sent one message, an object whose ['_id'] is [_id]. *)
Definition responds {A : Type} (_id : value) (c : M A) : Prop :=
  forall st r st',
    c st = (r, st') ->
    sent (trace st') = sent (trace st)
    \/ (exists a m, r = Return a
                    /\ sent (trace st') = sent (trace st) ++ [m]
                    /\ getitem m "_id" = Return _id).

End Monad.

Arguments event ViewClass : clear implicits.
Arguments state View ViewClass : clear implicits.
Arguments M View ViewClass A : clear implicits.

Notation "x <- c ;; k" := (bind c (fun x => k))
  (at level 100, c at next level, right associativity).
Notation "c ;; k" := (bind c (fun _ => k))
  (at level 100, right associativity).

(** What [get_user] gives: a [User] or the anonymous user. *)
Inductive user_object : Type :=
| User (id : Z)
| AnonymousUser.

(** ** A small deployment, for the examples *)

Module Example.

(** A view instance is its class and the path it shows. *)
Definition View : Type := string * string.
Definition ViewClass : Type := string.

Definition showing (to_url : value) (v : View) : View :=
  match to_url with
  | VStr u => (fst v, u)
  | _ => v
  end.

Definition isinstance (v : View) (cls : ViewClass) : bool :=
  String.eqb (fst v) cls.

Definition View_new (cls : ViewClass) (channel : string) (s : Store)
  : outcome View * Store :=
  (Return (cls, ""), s).

(** The task view refuses to navigate to the archive. *)
Definition onurl (to_url : value) : hook View value :=
  fun v s =>
    if eq_str to_url "/tasks/archive" then (Return (VBool false), v, s)
    else (Return (VBool true), showing to_url v, s).

Definition ondestroy : hook View unit := fun v s => (Return tt, v, s).

Definition oncreate (to_url : value) : hook View unit :=
  fun v s => (Return tt, showing to_url v, s).

Definition render : hook View value :=
  fun v s => (Return (VStr ("<main>" +:+ snd v +:+ "</main>")), v, s).

Definition ddp_urlpatterns : list (Route ViewClass) :=
  [ {| pattern := String.prefix "/about"; callback := "AboutView" |};
    {| pattern := String.prefix "/tasks"; callback := "TaskView" |} ].

(** [echo] returns its argument. *)
Definition echo : Method := fun arg s => (Return arg, s).

Definition server_methods (name : string) : option Method :=
  if String.eqb name "echo" then Some echo else None.

Definition repr (v : value) : string := "<value>".

(** A parser that reads the one message of an example. *)
Definition loads (data : value) : string -> outcome value :=
  fun _ => Return data.

Definition channel_name : string := "c1".

Definition client : Client :=
  {| client_channel := "c1"; client_user := None |}.

Definition tasks : Publication :=
  {| pub_name := "tasks"; pub_matching := [VStr "t1"; VStr "t2"] |}.

Definition connected : state View ViewClass :=
  {| store := {| clients := {[ "c1" := client ]};
                 publications := {[ "tasks" := tasks ]};
                 subscriptions := [];
                 next_id := 1;
                 layer := [] |};
     view := None;
     trace := [] |}.

(** The same, with a task view live. *)
Definition viewing : state View ViewClass :=
  {| store := store connected;
     view := Some ("TaskView", "/tasks");
     trace := [] |}.

(** The same, without the Connection row. *)
Definition unknown_channel : state View ViewClass :=
  {| store := {| clients := ∅;
                 publications := {[ "tasks" := tasks ]};
                 subscriptions := [];
                 next_id := 1;
                 layer := [] |};
     view := None;
     trace := [] |}.

(** After one subscription to [tasks] from the component [root]. *)
Definition subscribed : state View ViewClass :=
  {| store := {| clients := {[ "c1" := client ]};
                 publications := {[ "tasks" := tasks ]};
                 subscriptions :=
                   [ {| sub_id := Some 1; sub_publication := tasks;
                        sub_parent := VStr "root"; sub_client := client |} ];
                 next_id := 2;
                 layer := [("c1", inserted_event (VStr "t1"));
                           ("c1", inserted_event (VStr "t2"))] |};
     view := None;
     trace := [] |}.

Definition request (_id : string) (type : string) (params : value) : value :=
  VDict [("_id", VStr _id); ("type", VStr type); ("params", params)].

(** The user of the session. *)
Definition get_user : Store -> outcome user_object * Store :=
  fun s => (Return (User 7), s).

(** A view whose creation fails. *)
Definition oncreate_failing (to_url : value) : hook View unit :=
  fun v s => (Raise (Failure "ValueError"), showing to_url v, s).

End Example.

(** ** The consumer *)

Section Consumer.

(** What the module imports and does not define: the view classes of
    ryzom.views with their hooks, the route table [ddp_urlpatterns], the
    method namespace [server_methods], and two builtins. *)
Context {View ViewClass : Type}.

Variable isinstance : View -> ViewClass -> bool.
Variable View_new : ViewClass -> string -> Store -> outcome View * Store.
Variable onurl : value -> hook View value.
Variable ondestroy : hook View unit.
Variable oncreate : value -> hook View unit.
Variable render : hook View value.

Variable ddp_urlpatterns : list (Route ViewClass).
Variable server_methods : string -> option Method.

(** [json.loads], and [str()] of a value that is not a string. *)
Variable json_loads : string -> outcome value.
Variable repr : value -> string.

(** [self.channel_name]. *)
Variable channel_name : string.

Abbreviation M := (M View ViewClass).
Abbreviation state := (state View ViewClass).
Abbreviation event := (event ViewClass).

(** [f'{v}']. *)
Definition format (v : value) : string :=
  match v with
  | VStr s => s
  | _ => repr v
  end.

(** *** recv_geturl *)

(** The [else] branch of the loop body: the old view is destroyed and a
    new one created, rendered and sent. *)
Definition geturl_create (data to_url : value) (url : Route ViewClass) : M unit :=
  cview <- get_view ;;
  match cview with
  | Some v =>
      if instance_truthy v
      then emit CallOndestroy ;; call_view ondestroy
      else ret tt
  | None => ret tt
  end ;;
  emit (CallNew (callback url) channel_name) ;;
  v <- with_store (View_new (callback url) channel_name) ;;
  set_view v ;;
  emit (CallOncreate to_url) ;;
  call_view (oncreate to_url) ;;
  _id <- lift (getitem data "_id") ;;
  emit CallRender ;;
  markup <- call_view render ;;
  send (VDict [("_id", _id); ("type", VStr "Success"); ("params", markup)]).

(** The [if] branch: the live view is asked to navigate. *)
Definition geturl_navigate (data to_url : value) : M unit :=
  emit (CallOnurl to_url) ;;
  ok <- call_view (onurl to_url) ;;
  if truthy ok
  then
    _id <- lift (getitem data "_id") ;;
    send (VDict [("_id", _id); ("type", VStr "Success");
                 ("params", VList [])])
  else ret tt.

(** [url.pattern.match(to_url)]: a pattern matches strings only. *)
Definition pattern_match (url : Route ViewClass) (to_url : value) : outcome bool :=
  match to_url with
  | VStr s => Return (pattern url s)
  | _ => Raise TypeError
  end.

(** [for url in ddp_urlpatterns: if ...: ...; break]. *)
Fixpoint geturl_loop (data to_url : value) (urls : list (Route ViewClass)) : M unit :=
  match urls with
  | [] => ret tt
  | url :: rest =>
      matched <- lift (pattern_match url to_url) ;;
      if matched : bool
      then
        cview <- get_view ;;
        match cview with
        | Some v =>
            if instance_truthy v && isinstance v (callback url)
            then geturl_navigate data to_url
            else geturl_create data to_url url
        | None => geturl_create data to_url url
        end
      else geturl_loop data to_url rest
  end.

Definition recv_geturl (data : value) : M unit :=
  params <- lift (getitem data "params") ;;
  to_url <- lift (getitem params "url") ;;
  geturl_loop data to_url ddp_urlpatterns.

(** *** recv_method *)

(** [getattr(server_methods, name, None)]: the name must be a string. *)
Definition lookup_method (name : value) : outcome (option Method) :=
  match name with
  | VStr n => Return (server_methods n)
  | _ => Raise TypeError
  end.

Definition recv_method (data : value) : M unit :=
  _id <- lift (getitem data "_id") ;;
  let to_send := [("_id", _id)] in
  params <- lift (getitem data "params") ;;
  name <- lift (getitem params "name") ;;
  method <- lift (lookup_method name) ;;
  match method with
  | None =>
      name' <- lift (getitem params "name") ;;
      send (VDict (Dict.update to_send
        [("type", VStr "Error");
         ("params", error_params "Not found"
                      ("Method " +:+ format name' +:+ " not found"))]))
  | Some m =>
      arg <- lift (getitem params "params") ;;
      emit (CallMethod name arg) ;;
      r <- with_store (m arg) ;;
      if truthy r
      then send (VDict (Dict.update to_send
                  [("type", VStr "Success"); ("params", r)]))
      else send (VDict (Dict.update to_send
                  [("type", VStr "Error"); ("params", r)]))
  end.

(** *** The push path *)

Definition insert_component (data : value) (change : bool) : M unit :=
  instance <- lift (getitem data "instance") ;;
  send (VDict [("type", VStr "DDP");
               ("params",
                VDict [("type", VStr (if negb change then "insert"
                                      else "change"));
                       ("params", instance)])]).

Definition remove_component (data : value) : M unit :=
  _id <- lift (getitem data "_id") ;;
  parent <- lift (getitem data "parent") ;;
  send (VDict [("type", VStr "DDP");
               ("params",
                VDict [("type", VStr "remove");
                       ("params",
                        VDict [("_id", _id); ("parent", parent)])])]).

(** [data['params']['type']], which each test of the chain evaluates
    again. *)
Definition ddp_type (data : value) : M value :=
  params <- lift (getitem data "params") ;;
  lift (getitem params "type").

Definition handle_ddp (data : value) : M unit :=
  t <- ddp_type data ;;
  if eq_str t "inserted"
  then params <- lift (getitem data "params") ;;
       insert_component params false
  else
    t <- ddp_type data ;;
    if eq_str t "changed"
    then params <- lift (getitem data "params") ;;
         insert_component params true
    else
      t <- ddp_type data ;;
      if eq_str t "removed"
      then params <- lift (getitem data "params") ;;
           remove_component params
      else ret tt.

(** *** recv_subscribe and recv_unsubscribe *)

(** [Clients.objects.get(channel=...)]. *)
Definition Clients_get (channel : string) : M Client :=
  s <- get_store ;;
  lift (objects_get (clients s) channel).

(** [Publications.objects.get(name=...)]: the name column holds strings,
    a lookup value that is not one is compared through [str()], and
    [None] matches no row. *)
Definition Publications_get (name : value) : M Publication :=
  s <- get_store ;;
  match name with
  | VNone => lift (Raise DoesNotExist)
  | _ => lift (objects_get (publications s) (format name))
  end.

(** [for key in keys: if key not in params: ...; return]: the first key
    that [params] lacks, if any. *)
Fixpoint first_missing (keys : list string) (params : value)
  : outcome (option string) :=
  match keys with
  | [] => Return None
  | key :: rest =>
      match contains key params with
      | Return true => first_missing rest params
      | Return false => Return (Some key)
      | Raise e => Raise e
      end
  end.

Definition recv_subscribe (data : value) : M unit :=
  params <- lift (getitem data "params") ;;
  _id <- lift (getitem data "_id") ;;
  let to_send := [("_id", _id)] in
  client <- Clients_get channel_name ;;
  missing <- lift (first_missing ["name"; "_id"] params) ;;
  match missing with
  | Some key =>
      send (VDict (Dict.update to_send
        [("type", VStr "Error");
         ("params", error_params "Bad format"
                      ("Subscription " +:+ key +:+ " not found"))]))
  | None =>
      if negb (instance_truthy client)
      then
        send (VDict (Dict.update to_send
          [("type", VStr "Error");
           ("params", error_params "Client not found"
                        "No client was found for this channel name")]))
      else
        name <- lift (getitem params "name") ;;
        pub <- Publications_get name ;;
        parent <- lift (getitem params "_id") ;;
        let sub := {| sub_id := None; sub_publication := pub;
                      sub_parent := parent; sub_client := client |} in
        emit (CallInit sub) ;;
        with_store (fun s => (Return tt, Subscriptions_init sub s)) ;;
        emit (CallSave sub) ;;
        sub' <- with_store (fun s => let '(saved, s') :=
                                       Subscriptions_save sub s in
                                     (Return saved, s')) ;;
        name' <- lift (getitem params "name") ;;
        send (VDict (Dict.update to_send
          [("type", VStr "Success");
           ("params", VDict [("name", name');
                             ("sub_id", id_value sub')])]))
  end.

Definition recv_unsubscribe (data : value) : M unit :=
  params <- lift (getitem data "params") ;;
  _id <- lift (getitem data "_id") ;;
  name <- lift (getitem params "name") ;;
  send (VDict [("_id", _id); ("type", VStr "unsubscribed");
               ("message", VStr "Got unsub");
               ("params", VDict [("name", name)])]).

(** *** receive *)

(** [getattr(self, f'recv_{msg_type}', None)] for a [msg_type] of the
    list of known types. *)
Definition recv_ (msg_type : value) : option (value -> M unit) :=
  if eq_str msg_type "subscribe" then Some recv_subscribe
  else if eq_str msg_type "unsubscribe" then Some recv_unsubscribe
  else if eq_str msg_type "method" then Some recv_method
  else if eq_str msg_type "geturl" then Some recv_geturl
  else None.

Definition known_types : list string :=
  ["subscribe"; "unsubscribe"; "method"; "geturl"].

(** [msg_type in ['subscribe', 'unsubscribe', 'method', 'geturl']]. *)
Definition known (msg_type : value) : bool :=
  existsb (eq_str msg_type) known_types.

Definition receive_dispatch (data msg_type : value) : M unit :=
  if known msg_type
  then
    match recv_ msg_type with
    | Some func =>
        except_KeyError
          (emit (Dispatch msg_type) ;; func data)
          (fun e =>
             emit (Printed e) ;;
             _id <- lift (dict_get data "_id") ;;
             send (VDict [("_id", _id); ("type", VStr "Error");
                          ("params", error_params "Bad format"
                             bad_format_message)]))
    | None => ret tt
    end
  else
    _id <- lift (getitem data "_id") ;;
    send (VDict [("_id", _id); ("type", VStr "Error");
                 ("params", error_params "Bad message type"
                    (format msg_type +:+ " not recognized"))]).

Definition receive (text_data : string) : M unit :=
  data <- lift (json_loads text_data) ;;
  _id <- lift (dict_get data "_id") ;;
  if negb (truthy _id)
  then ret tt
  else
    match getitem data "type" with
    | Raise (KeyError _) =>
        _id <- lift (getitem data "_id") ;;
        send (VDict [("_id", _id); ("type", VStr "Error");
                     ("params", error_params "Bad message"
                        "message type not found")])
    | Raise e => lift (Raise e)
    | Return msg_type => receive_dispatch data msg_type
    end.

(** *** connect and disconnect *)

(** [async_to_sync(get_user)(self.scope)]. *)
Variable get_user : Store -> outcome user_object * Store.

(** The websocket under the consumer: whether [accept] was called. *)
Record socket : Type := {
  accepted : bool;
  consumer : state
}.

(** Modelled from the spec: [Clients.objects.create(channel=..., user=...)]
    adds the Connection row of the channel. *)
Definition Clients_create (channel : string) (user : option Z) : M Client :=
  with_store (fun s =>
    let row := {| client_channel := channel; client_user := user |} in
    (Return row,
     {| clients := <[channel := row]> (clients s);
        publications := publications s;
        subscriptions := subscriptions s;
        next_id := next_id s;
        layer := layer s |})).

(** Modelled from the spec: [Clients.objects.filter(channel=...).delete()]
    removes the Connection row of the channel, if there is one, and with it
    the Subscriptions of that Connection (the cascade the docstring of
    [disconnect] names). *)
Definition Clients_delete (channel : string) : M unit :=
  with_store (fun s =>
    (Return tt,
     {| clients := delete channel (clients s);
        publications := publications s;
        subscriptions :=
          List.filter
            (fun sub => negb (String.eqb (client_channel (sub_client sub))
                                         channel))
            (subscriptions s);
        next_id := next_id s;
        layer := layer s |})).

Definition connect (sk : socket) : outcome unit * socket :=
  let '(r, st') :=
    (user <- with_store get_user ;;
     Clients_create channel_name
       (match user with User id => Some id | AnonymousUser => None end) ;;
     send (VDict [("type", VStr "Connected")])) (consumer sk) in
  (r, {| accepted := true; consumer := st' |}).

Definition disconnect (close_code : value) : M unit :=
  Clients_delete channel_name.

(** The Subscriptions that are not of the channel: what a disconnect
    keeps. *)
Definition of_other_channel (channel : string) (sub : Subscription) : bool :=
  negb (String.eqb (client_channel (sub_client sub)) channel).

(** ** Properties *)

Lemma eq_str_true (v : value) (s : string) : eq_str v s = true <-> v = VStr s.
Proof.
  destruct v; simpl; try (split; [discriminate | intros [=]]).
  rewrite String.eqb_eq. split; [intros -> | intros [=]]; congruence.
Qed.

Lemma eq_str_false (v : value) (s : string) :
  eq_str v s = false <-> v <> VStr s.
Proof.
  rewrite <- eq_str_true. destruct (eq_str v s); split; congruence.
Qed.

(** Unfolds one layer of the monad. *)
Ltac run := unfold bind, lift, ret, send, emit, get_store, get_view; simpl.

(** C8: a message whose parsed envelope has no ['_id'] key is dropped:
    [receive] returns with the state, and so the trace, as it was, so
    nothing is sent and no handler is dispatched to. *)
Theorem receive_without_id (text : string) (d : list (string * value))
    (st : state) :
  json_loads text = Return (VDict d) ->
  Dict.get "_id" d = None ->
  receive text st = (Return tt, st).
Proof.
  intros Hloads Hid. unfold receive. run.
  rewrite Hloads. simpl. rewrite Hid. reflexivity.
Qed.

(** C9: a message whose ['_id'] is present but false as a Python value (the
    empty string, 0, None and False among them) is dropped in the same
    way: nothing is sent and no handler is dispatched to. *)
Theorem receive_falsy_id (text : string) (d : list (string * value))
    (_id : value) (st : state) :
  json_loads text = Return (VDict d) ->
  Dict.get "_id" d = Some _id ->
  _id = VStr "" \/ _id = VInt 0 \/ _id = VNone \/ _id = VBool false
  \/ truthy _id = false ->
  receive text st = (Return tt, st).
Proof.
  intros Hloads Hid Hfalsy.
  assert (Hf : truthy _id = false)
    by (destruct Hfalsy as [-> | [-> | [-> | [-> | H]]]]; auto).
  unfold receive. run. rewrite Hloads. simpl. rewrite Hid, Hf. reflexivity.
Qed.

(** C10: a [handle.ddp] event whose [params.type] is none of ['inserted'],
    ['changed'], ['removed'] is ignored: nothing is sent and the state is
    as it was.  Each of the three known types, with its payload present,
    sends exactly one DDP envelope and changes nothing else. *)
Theorem handle_ddp_by_type (data params t : value) (st : state) :
  getitem data "params" = Return params ->
  getitem params "type" = Return t ->
  (t <> VStr "inserted" -> t <> VStr "changed" -> t <> VStr "removed" ->
   handle_ddp data st = (Return tt, st))
  /\ (forall instance, getitem params "instance" = Return instance ->
      (t = VStr "inserted" ->
       handle_ddp data st =
       (Return tt, {| store := store st; view := view st;
                      trace := trace st ++ [Send (ddp "insert" instance)] |}))
      /\ (t = VStr "changed" ->
          handle_ddp data st =
          (Return tt, {| store := store st; view := view st;
                         trace := trace st ++ [Send (ddp "change" instance)] |})))
  /\ (forall _id parent,
        getitem params "_id" = Return _id ->
        getitem params "parent" = Return parent ->
        t = VStr "removed" ->
        handle_ddp data st =
        (Return tt,
         {| store := store st; view := view st;
            trace := trace st ++
              [Send (ddp "remove" (VDict [("_id", _id);
                                          ("parent", parent)]))] |})).
Proof.
  intros Hparams Htype.
  assert (Hty : forall st', ddp_type data st' = (Return t, st')).
  { intros st'. unfold ddp_type. run. rewrite Hparams. simpl.
    rewrite Htype. reflexivity. }
  split; [| split].
  - intros H1 H2 H3. apply eq_str_false in H1, H2, H3.
    unfold handle_ddp, bind. rewrite Hty, H1, Hty, H2, Hty, H3. reflexivity.
  - intros instance Hinst. split; intros ->.
    + unfold handle_ddp, bind. rewrite Hty. simpl.
      unfold lift. rewrite Hparams. unfold insert_component. run.
      rewrite Hinst. reflexivity.
    + unfold handle_ddp, bind. rewrite Hty. simpl. rewrite Hty. simpl.
      unfold lift. rewrite Hparams. unfold insert_component. run.
      rewrite Hinst. reflexivity.
  - intros _id parent Hid Hparent ->.
    unfold handle_ddp, bind. rewrite Hty. simpl. rewrite Hty. simpl.
    rewrite Hty. simpl.
    unfold lift. rewrite Hparams. unfold remove_component. run.
    rewrite Hid. simpl. rewrite Hparent. reflexivity.
Qed.

(** C7: an unsubscribe request with a ['name'] in its params is answered
    with exactly one acknowledgement envelope and nothing else happens:
    the store (all Connection and Subscription rows among it) and the view
    are as they were. *)
Theorem recv_unsubscribe_only_acknowledges (data _id params name : value)
    (st : state) :
  getitem data "_id" = Return _id ->
  getitem data "params" = Return params ->
  getitem params "name" = Return name ->
  exists st',
    recv_unsubscribe data st = (Return tt, st')
    /\ store st' = store st
    /\ view st' = view st
    /\ trace st' = trace st ++
         [Send (VDict [("_id", _id); ("type", VStr "unsubscribed");
                       ("message", VStr "Got unsub");
                       ("params", VDict [("name", name)])])].
Proof.
  intros Hid Hparams Hname. eexists. split.
  - unfold recv_unsubscribe. run. rewrite Hparams. simpl. rewrite Hid. simpl.
    rewrite Hname. reflexivity.
  - simpl. auto.
Qed.

Lemma Clients_get_found (client : Client) (st : state) :
  clients (store st) !! channel_name = Some client ->
  Clients_get channel_name st = (Return client, st).
Proof.
  intros H. unfold Clients_get, objects_get. run. rewrite H. reflexivity.
Qed.

Lemma Clients_get_missing (st : state) :
  clients (store st) !! channel_name = None ->
  Clients_get channel_name st = (Raise DoesNotExist, st).
Proof.
  intros H. unfold Clients_get, objects_get. run. rewrite H. reflexivity.
Qed.

(** C4: with the Connection present, a subscribe request whose params lack
    ['name'] or ['_id'] gets exactly one [Bad format] error that names the
    first missing key, ['name'] before ['_id'], and no Subscription row is
    created: the store is as it was. *)
Theorem recv_subscribe_missing_key (data _id : value)
    (params : list (string * value)) (client : Client) (st : state) :
  getitem data "_id" = Return _id ->
  getitem data "params" = Return (VDict params) ->
  clients (store st) !! channel_name = Some client ->
  Dict.mem "name" params = false \/ Dict.mem "_id" params = false ->
  let key := if Dict.mem "name" params then "_id" else "name" in
  exists st',
    recv_subscribe data st = (Return tt, st')
    /\ store st' = store st
    /\ view st' = view st
    /\ trace st' = trace st ++
         [Send (envelope _id "Error"
                  (error_params "Bad format"
                     ("Subscription " +:+ key +:+ " not found")))].
Proof.
  intros Hid Hparams Hclient Hmissing key.
  assert (Hfirst : first_missing ["name"; "_id"] (VDict params)
                   = Return (Some key)).
  { subst key. simpl. destruct (Dict.mem "name" params); [| reflexivity].
    destruct Hmissing as [? | ->]; [discriminate | reflexivity]. }
  eexists. split.
  - unfold recv_subscribe, bind at 1 2 3. unfold lift at 1 2.
    rewrite Hparams, Hid. rewrite (Clients_get_found client) by assumption.
    unfold bind at 1. unfold lift at 1. rewrite Hfirst. reflexivity.
  - simpl. auto.
Qed.

Lemma Publications_get_found (name : value) (pub : Publication)
    (st : state) :
  name <> VNone ->
  publications (store st) !! format name = Some pub ->
  Publications_get name st = (Return pub, st).
Proof.
  intros Hname H. unfold Publications_get, objects_get. run.
  destruct name; try congruence; unfold lift; simpl in H |- *;
    rewrite H; reflexivity.
Qed.

(** C1: a subscribe request with ['name'] and ['_id'] in its params, on a
    channel whose Connection row exists and for a Publication that exists,
    calls the new Subscription's [init] and then its [save], which adds
    the row linking the Publication, the parent given by the client and the
    Connection, and sends exactly one Success response, with the request's
    ['_id'] and params [{name, sub_id}], [sub_id] being the id of the new
    row. *)
Theorem recv_subscribe_creates_subscription (data _id name parent : value)
    (params : list (string * value)) (client : Client) (pub : Publication)
    (st : state) :
  getitem data "_id" = Return _id ->
  getitem data "params" = Return (VDict params) ->
  Dict.get "name" params = Some name ->
  Dict.get "_id" params = Some parent ->
  clients (store st) !! channel_name = Some client ->
  name <> VNone ->
  publications (store st) !! format name = Some pub ->
  let sub := {| sub_id := None; sub_publication := pub;
                sub_parent := parent; sub_client := client |} in
  let row := {| sub_id := Some (next_id (store st)); sub_publication := pub;
                sub_parent := parent; sub_client := client |} in
  exists st',
    recv_subscribe data st = (Return tt, st')
    /\ store st' = snd (Subscriptions_save sub
                          (Subscriptions_init sub (store st)))
    /\ subscriptions (store st') = subscriptions (store st) ++ [row]
    /\ view st' = view st
    /\ trace st' = trace st ++
         [CallInit sub; CallSave sub;
          Send (envelope _id "Success"
                  (VDict [("name", name);
                          ("sub_id", VInt (next_id (store st)))]))].
Proof.
  intros Hid Hparams Hname Hparent Hclient Hnone Hpub sub row.
  assert (Hfirst : first_missing ["name"; "_id"] (VDict params) = Return None).
  { simpl. unfold Dict.mem. rewrite Hname, Hparent. reflexivity. }
  eexists. split.
  - unfold recv_subscribe, bind at 1 2 3. unfold lift at 1 2.
    rewrite Hparams, Hid. rewrite (Clients_get_found client) by assumption.
    unfold bind at 1. unfold lift at 1. rewrite Hfirst.
    change (negb (instance_truthy client)) with false. cbv iota.
    unfold bind at 1. unfold lift at 1, getitem. rewrite Hname.
    unfold bind at 1. rewrite (Publications_get_found name pub) by assumption.
    unfold bind at 1. unfold lift at 1. rewrite Hparent.
    run. reflexivity.
  - simpl. repeat rewrite <- app_assoc. repeat split.
Qed.

(** C2: a method request that names a registered handler calls it with the
    request's [params.params] and, the handler having returned, sends
    exactly one response with the request's ['_id'] and the returned value
    as params: a Success envelope when that value is true as a Python
    value, an Error envelope when it is false. *)
Theorem recv_method_response (data _id params arg r : value) (name : string)
    (method : Method) (s' : Store) (st : state) :
  getitem data "_id" = Return _id ->
  getitem data "params" = Return params ->
  getitem params "name" = Return (VStr name) ->
  getitem params "params" = Return arg ->
  server_methods name = Some method ->
  method arg (store st) = (Return r, s') ->
  exists st',
    recv_method data st = (Return tt, st')
    /\ store st' = s'
    /\ view st' = view st
    /\ trace st' = trace st ++
         [CallMethod (VStr name) arg;
          Send (envelope _id (if truthy r then "Success" else "Error") r)].
Proof.
  intros Hid Hparams Hname Harg Hmethod Hcall.
  assert (Hrun : recv_method data st =
    (Return tt,
     {| store := s'; view := view st;
        trace := trace st ++
          [CallMethod (VStr name) arg;
           Send (envelope _id (if truthy r then "Success" else "Error") r)] |})).
  { unfold recv_method. run. rewrite Hid. simpl. rewrite Hparams. simpl.
    rewrite Hname. simpl. rewrite Hmethod, Harg. simpl.
    unfold with_store. simpl. rewrite Hcall.
    destruct (truthy r); simpl; rewrite <- app_assoc; reflexivity. }
  eexists. split; [exact Hrun | simpl; auto].
Qed.

(** *** What a handler has sent when it raises *)

Lemma sent_app (t t' : list event) : sent (t ++ t') = sent t ++ sent t'.
Proof. unfold sent. apply flat_map_app. Qed.

Lemma quiet_ret {A : Type} (a : A) : quiet (ret a : M A).
Proof. intros st. reflexivity. Qed.

Lemma quiet_lift {A : Type} (o : outcome A) : quiet (lift o : M A).
Proof. intros st. reflexivity. Qed.

Lemma quiet_emit (e : event) : sent [e] = [] -> quiet (emit e : M unit).
Proof.
  intros He st. simpl. rewrite sent_app, He. apply app_nil_r.
Qed.

Lemma quiet_get_store : quiet (get_store : M Store).
Proof. intros st. reflexivity. Qed.

Lemma quiet_get_view : quiet (get_view : M (option View)).
Proof. intros st. reflexivity. Qed.

Lemma quiet_set_view (v : View) : quiet (set_view v : M unit).
Proof. intros st. reflexivity. Qed.

Lemma quiet_with_store {A : Type} (f : Store -> outcome A * Store) :
  quiet (with_store f : M A).
Proof. intros st. unfold with_store. destruct (f (store st)). reflexivity. Qed.

Lemma quiet_call_view {A : Type} (h : hook View A) :
  quiet (call_view h : M A).
Proof.
  intros st. unfold call_view. destruct (view st) as [v |]; [| reflexivity].
  destruct (h v (store st)) as [[r v'] s']. reflexivity.
Qed.

Lemma quiet_bind {A B : Type} (c : M A) (k : A -> M B) :
  quiet c -> (forall a, quiet (k a)) -> quiet (bind c k).
Proof.
  intros Hc Hk st. unfold bind. specialize (Hc st).
  destruct (c st) as [[a | e] st1]; simpl in Hc |- *.
  - rewrite Hk. exact Hc.
  - exact Hc.
Qed.

Lemma unanswered_quiet {A : Type} (c : M A) :
  quiet c -> unanswered_on_raise c.
Proof. intros Hc st e st' H. specialize (Hc st). rewrite H in Hc. exact Hc. Qed.

Lemma unanswered_send (msg : value) :
  unanswered_on_raise (send msg : M unit).
Proof. intros st e st' H. discriminate H. Qed.

Lemma unanswered_bind {A B : Type} (c : M A) (k : A -> M B) :
  quiet c -> (forall a, unanswered_on_raise (k a)) ->
  unanswered_on_raise (bind c k).
Proof.
  intros Hc Hk st e st' H. unfold bind in H. specialize (Hc st).
  destruct (c st) as [[a | e1] st1]; simpl in Hc.
  - rewrite <- Hc. exact (Hk a st1 e st' H).
  - injection H as _ <-. exact Hc.
Qed.

Ltac prove_quiet :=
  repeat first
    [ apply quiet_ret | apply quiet_lift | apply quiet_get_store
    | apply quiet_get_view | apply quiet_set_view | apply quiet_with_store
    | apply quiet_call_view | apply quiet_emit; reflexivity
    | apply quiet_bind; [| intros ?]
    | match goal with
      | |- quiet (match ?x with _ => _ end) => destruct x
      end ].

Ltac prove_unanswered :=
  repeat first
    [ apply unanswered_send
    | apply unanswered_bind; [prove_quiet | intros ?]
    | match goal with
      | |- unanswered_on_raise (match ?x with _ => _ end) => destruct x
      end
    | apply unanswered_quiet; prove_quiet ].

Lemma geturl_navigate_unanswered (data to_url : value) :
  unanswered_on_raise (geturl_navigate data to_url).
Proof. unfold geturl_navigate. prove_unanswered. Qed.

Lemma geturl_create_unanswered (data to_url : value) (url : Route ViewClass) :
  unanswered_on_raise (geturl_create data to_url url).
Proof. unfold geturl_create. prove_unanswered. Qed.

Lemma geturl_loop_unanswered (data to_url : value)
    (urls : list (Route ViewClass)) :
  unanswered_on_raise (geturl_loop data to_url urls).
Proof.
  induction urls as [| url rest IH]; simpl.
  - prove_unanswered.
  - apply unanswered_bind; [prove_quiet | intros matched].
    destruct matched; [| exact IH].
    apply unanswered_bind; [prove_quiet | intros cview].
    destruct cview as [v |].
    + simpl. destruct (isinstance v (callback url)).
      * apply geturl_navigate_unanswered.
      * apply geturl_create_unanswered.
    + apply geturl_create_unanswered.
Qed.

Lemma recv_geturl_unanswered (data : value) :
  unanswered_on_raise (recv_geturl data).
Proof.
  unfold recv_geturl.
  apply unanswered_bind; [prove_quiet | intros params].
  apply unanswered_bind; [prove_quiet | intros to_url].
  apply geturl_loop_unanswered.
Qed.

Lemma recv_method_unanswered (data : value) :
  unanswered_on_raise (recv_method data).
Proof. unfold recv_method. prove_unanswered. Qed.

Lemma recv_subscribe_unanswered (data : value) :
  unanswered_on_raise (recv_subscribe data).
Proof. unfold recv_subscribe, Clients_get, Publications_get. prove_unanswered. Qed.

Lemma recv_unsubscribe_unanswered (data : value) :
  unanswered_on_raise (recv_unsubscribe data).
Proof. unfold recv_unsubscribe. prove_unanswered. Qed.

Lemma recv__unanswered (msg_type data : value) (func : value -> M unit) :
  recv_ msg_type = Some func -> unanswered_on_raise (func data).
Proof.
  unfold recv_. intros H.
  repeat match type of H with
         | (if ?b then _ else _) = _ => destruct b
         end;
    try discriminate; injection H as <-.
  - apply recv_subscribe_unanswered.
  - apply recv_unsubscribe_unanswered.
  - apply recv_method_unanswered.
  - apply recv_geturl_unanswered.
Qed.

Lemma recv__known (msg_type : value) (func : value -> M unit) :
  recv_ msg_type = Some func -> known msg_type = true.
Proof.
  unfold recv_, known, known_types. simpl. intros H.
  repeat match type of H with
         | (if ?b then _ else _) = _ => destruct b
         end;
    try discriminate; reflexivity.
Qed.

(** C3: when [receive] gets an envelope with an ['_id'] (one that passes
    the check on it) and a known type, and the handler raises [KeyError],
    whatever the key, [receive] returns normally having sent exactly one
    message on top of what was sent before: the [Bad format] error with
    the request's ['_id'] and the fixed text, in which the key does not
    appear.  The exception is printed and the handler's other effects
    stay. *)
Theorem receive_handler_KeyError (text : string) (d : list (string * value))
    (_id msg_type key : value) (func : value -> M unit) (st st1 : state) :
  json_loads text = Return (VDict d) ->
  Dict.get "_id" d = Some _id ->
  truthy _id = true ->
  Dict.get "type" d = Some msg_type ->
  recv_ msg_type = Some func ->
  func (VDict d)
       {| store := store st; view := view st;
          trace := trace st ++ [Dispatch msg_type] |}
  = (Raise (KeyError key), st1) ->
  exists st',
    receive text st = (Return tt, st')
    /\ store st' = store st1
    /\ view st' = view st1
    /\ trace st' = trace st1 ++ [Printed (KeyError key); Send (bad_format _id)]
    /\ sent (trace st') = sent (trace st) ++ [bad_format _id].
Proof.
  intros Hloads Hid Htruthy Htype Hfunc Hraise.
  assert (Hrun : receive text st =
    (Return tt,
     {| store := store st1; view := view st1;
        trace := trace st1 ++
                 [Printed (KeyError key); Send (bad_format _id)] |})).
  { unfold receive. run. rewrite Hloads. simpl. rewrite Hid, Htruthy, Htype.
    simpl. unfold receive_dispatch.
    rewrite (recv__known msg_type func Hfunc), Hfunc.
    unfold except_KeyError. run. rewrite Hraise. simpl. rewrite Hid.
    rewrite <- app_assoc. reflexivity. }
  eexists. split; [exact Hrun |]. cbn [store view trace]. repeat split.
  apply (recv__unanswered msg_type (VDict d) func Hfunc) in Hraise.
  cbn [trace] in Hraise.
  rewrite sent_app, Hraise, sent_app. simpl. rewrite app_nil_r. reflexivity.
Qed.

(** Routes that do not match are passed over. *)
Lemma geturl_loop_skip (data : value) (u : string)
    (pre urls : list (Route ViewClass)) (st : state) :
  Forall (fun r => pattern r u = false) pre ->
  geturl_loop data (VStr u) (pre ++ urls) st
  = geturl_loop data (VStr u) urls st.
Proof.
  induction 1 as [| r pre Hr _ IH]; [reflexivity |].
  simpl. unfold bind at 1. unfold lift at 1. simpl. rewrite Hr. exact IH.
Qed.

(** C6 as the code has it: when the first route that matches the url is of
    the class of the live view, [recv_geturl] calls the view's [onurl]
    with the path and calls nothing else, so the view is neither destroyed
    nor replaced; if [onurl] returns a true value, exactly one Success
    response with the request's ['_id'] is sent, whose params are the
    empty list; if it returns a false value, nothing is sent. *)
Theorem recv_geturl_navigates (data _id params ok : value) (u : string)
    (pre post : list (Route ViewClass)) (url : Route ViewClass)
    (v v' : View) (s' : Store) (st : state) :
  getitem data "_id" = Return _id ->
  getitem data "params" = Return params ->
  getitem params "url" = Return (VStr u) ->
  ddp_urlpatterns = pre ++ url :: post ->
  Forall (fun r => pattern r u = false) pre ->
  pattern url u = true ->
  view st = Some v ->
  isinstance v (callback url) = true ->
  onurl (VStr u) v (store st) = (Return ok, v', s') ->
  exists st',
    recv_geturl data st = (Return tt, st')
    /\ store st' = s'
    /\ view st' = Some v'
    /\ trace st' = trace st ++ CallOnurl (VStr u) ::
         (if truthy ok then [Send (envelope _id "Success" (VList []))]
          else []).
Proof.
  intros Hid Hparams Hurl Hroutes Hpre Hmatch Hview Hinst Honurl.
  assert (Hrun : recv_geturl data st =
    (Return tt,
     {| store := s'; view := Some v';
        trace := trace st ++ CallOnurl (VStr u) ::
          (if truthy ok then [Send (envelope _id "Success" (VList []))]
           else []) |})).
  { unfold recv_geturl. unfold bind at 1 2. unfold lift at 1 2.
    rewrite Hparams, Hurl, Hroutes, geturl_loop_skip by assumption.
    simpl. run. rewrite Hmatch, Hview, Hinst. simpl.
    unfold geturl_navigate, call_view. run. rewrite Hview, Honurl.
    destruct (truthy ok); simpl.
    - rewrite Hid. simpl. rewrite <- app_assoc. reflexivity.
    - reflexivity. }
  eexists. split; [exact Hrun |]. simpl. auto.
Qed.

(** With no Connection row for the channel, [recv_subscribe] fails at the
    lookup of the client: nothing is sent, whatever the params. *)
Lemma recv_subscribe_without_client (data _id params : value) (st : state) :
  getitem data "_id" = Return _id ->
  getitem data "params" = Return params ->
  clients (store st) !! channel_name = None ->
  recv_subscribe data st = (Raise DoesNotExist, st).
Proof.
  intros Hid Hparams Hclient.
  unfold recv_subscribe, bind at 1 2 3. unfold lift at 1 2.
  rewrite Hparams, Hid, Clients_get_missing by assumption. reflexivity.
Qed.

(** *** The other paths of receive *)

Lemma known_false (msg_type : value) :
  known msg_type = false <-> Forall (fun k => msg_type <> VStr k) known_types.
Proof.
  unfold known, known_types. simpl. rewrite !orb_false_iff.
  rewrite !eq_str_false. split.
  - intros (H1 & H2 & H3 & H4 & _). repeat constructor; assumption.
  - intros H. inversion H as [| ? ? H1 H']; subst.
    inversion H' as [| ? ? H2 H'']; subst.
    inversion H'' as [| ? ? H3 H''']; subst.
    inversion H''' as [| ? ? H4 _]; subst. auto.
Qed.

(** An envelope with an ['_id'] and no ['type'] key gets exactly one
    [Bad message] error with its ['_id'], no handler is called and nothing
    else changes. *)
Theorem receive_missing_type (text : string) (d : list (string * value))
    (_id : value) (st : state) :
  json_loads text = Return (VDict d) ->
  Dict.get "_id" d = Some _id ->
  truthy _id = true ->
  Dict.get "type" d = None ->
  receive text st =
  (Return tt,
   {| store := store st; view := view st;
      trace := trace st ++
        [Send (envelope _id "Error"
                 (error_params "Bad message" "message type not found"))] |}).
Proof.
  intros Hloads Hid Htruthy Htype. unfold receive. run.
  rewrite Hloads. simpl. rewrite Hid, Htruthy, Htype. reflexivity.
Qed.

(** An envelope whose ['type'] is none of the four known strings (another
    string, a string in another case, or a value that is not a string)
    gets exactly one [Bad message type] error with its ['_id'], whose
    message starts with the type as [str()] prints it; no handler is
    called and nothing else changes. *)
Theorem receive_unknown_type (text : string) (d : list (string * value))
    (_id msg_type : value) (st : state) :
  json_loads text = Return (VDict d) ->
  Dict.get "_id" d = Some _id ->
  truthy _id = true ->
  Dict.get "type" d = Some msg_type ->
  Forall (fun k => msg_type <> VStr k) known_types ->
  receive text st =
  (Return tt,
   {| store := store st; view := view st;
      trace := trace st ++
        [Send (envelope _id "Error"
                 (error_params "Bad message type"
                    (format msg_type +:+ " not recognized")))] |}).
Proof.
  intros Hloads Hid Htruthy Htype Hknown. apply known_false in Hknown.
  unfold receive. run. rewrite Hloads. simpl.
  rewrite Hid, Htruthy, Htype. simpl. unfold receive_dispatch.
  rewrite Hknown. run. rewrite ?Hid. reflexivity.
Qed.

(** A message that parses to something other than an object (a list, a
    string, a number, [null]) makes [receive] raise [AttributeError] at
    [data.get]: nothing is sent and nothing changes. *)
Theorem receive_not_an_object (text : string) (data : value) (st : state) :
  json_loads text = Return data ->
  (forall d, data <> VDict d) ->
  receive text st = (Raise AttributeError, st).
Proof.
  intros Hloads Hdata. unfold receive. run. rewrite Hloads.
  destruct data; try reflexivity. exfalso. exact (Hdata _ eq_refl).
Qed.

(** Every known type has its handler. *)
Lemma known_recv_ (msg_type : value) :
  known msg_type = true -> exists func, recv_ msg_type = Some func.
Proof.
  unfold known, known_types, recv_. simpl. intros H.
  destruct (eq_str msg_type "subscribe"); [eauto |].
  destruct (eq_str msg_type "unsubscribe"); [eauto |].
  destruct (eq_str msg_type "method"); [eauto |].
  destruct (eq_str msg_type "geturl"); [eauto | discriminate].
Qed.

(** With an ['_id'] that passes and a ['type'], [receive] is
    [receive_dispatch]. *)
Lemma receive_reaches_dispatch (text : string) (d : list (string * value))
    (_id msg_type : value) (st : state) :
  json_loads text = Return (VDict d) ->
  Dict.get "_id" d = Some _id ->
  truthy _id = true ->
  Dict.get "type" d = Some msg_type ->
  receive text st = receive_dispatch (VDict d) msg_type st.
Proof.
  intros Hloads Hid Htruthy Htype. unfold receive. run.
  rewrite Hloads. simpl. rewrite Hid, Htruthy, Htype. reflexivity.
Qed.

Lemma receive_dispatch_passes (data msg_type : value)
    (func : value -> M unit) (r : outcome unit) (st st1 : state) :
  recv_ msg_type = Some func ->
  func data {| store := store st; view := view st;
               trace := trace st ++ [Dispatch msg_type] |}
  = (r, st1) ->
  (forall key, r <> Raise (KeyError key)) ->
  receive_dispatch data msg_type st = (r, st1).
Proof.
  intros Hfunc Hrun Hr. unfold receive_dispatch.
  rewrite (recv__known msg_type func Hfunc), Hfunc.
  unfold except_KeyError. run. rewrite Hrun.
  destruct r as [[] | e]; [reflexivity |].
  destruct e; try reflexivity. exfalso. exact (Hr _ eq_refl).
Qed.

(** For a known type, [receive] is the handler: when the handler returns,
    or raises anything but [KeyError], [receive] ends the same way in the
    same state, so an exception that is not a [KeyError] goes through to
    the caller and no error envelope is sent for it. *)
Theorem receive_is_the_handler (text : string) (d : list (string * value))
    (_id msg_type : value) (func : value -> M unit) (r : outcome unit)
    (st st1 : state) :
  json_loads text = Return (VDict d) ->
  Dict.get "_id" d = Some _id ->
  truthy _id = true ->
  Dict.get "type" d = Some msg_type ->
  recv_ msg_type = Some func ->
  func (VDict d)
       {| store := store st; view := view st;
          trace := trace st ++ [Dispatch msg_type] |}
  = (r, st1) ->
  (forall key, r <> Raise (KeyError key)) ->
  receive text st = (r, st1).
Proof.
  intros Hloads Hid Htruthy Htype Hfunc Hrun Hr.
  rewrite (receive_reaches_dispatch text d _id msg_type) by assumption.
  exact (receive_dispatch_passes _ _ func r st st1 Hfunc Hrun Hr).
Qed.

(** A method, geturl or unsubscribe request whose ['params'] is present but
    is not an object makes the handler raise [TypeError] where it reads a
    key of it; [receive] does not catch it: no response is sent, and no
    method or view is called. *)
Theorem receive_params_not_an_object (text : string)
    (d : list (string * value)) (_id msg_type params : value) (st : state) :
  json_loads text = Return (VDict d) ->
  Dict.get "_id" d = Some _id ->
  truthy _id = true ->
  Dict.get "type" d = Some msg_type ->
  msg_type = VStr "method" \/ msg_type = VStr "geturl"
  \/ msg_type = VStr "unsubscribe" ->
  Dict.get "params" d = Some params ->
  (forall p, params <> VDict p) ->
  receive text st =
  (Raise TypeError,
   {| store := store st; view := view st;
      trace := trace st ++ [Dispatch msg_type] |}).
Proof.
  intros Hloads Hid Htruthy Htype Hmsg Hparams Hnot.
  assert (Hitem : forall k, getitem params k = Raise TypeError).
  { intros k. destruct params; try reflexivity.
    exfalso. exact (Hnot _ eq_refl). }
  rewrite (receive_reaches_dispatch text d _id msg_type) by assumption.
  destruct Hmsg as [-> | [-> | ->]].
  - apply (receive_dispatch_passes _ _ recv_method);
      [reflexivity | | discriminate].
    unfold recv_method. run. rewrite Hid, Hparams. simpl.
    rewrite Hitem. reflexivity.
  - apply (receive_dispatch_passes _ _ recv_geturl);
      [reflexivity | | discriminate].
    unfold recv_geturl. run. rewrite Hparams. simpl.
    rewrite Hitem. reflexivity.
  - apply (receive_dispatch_passes _ _ recv_unsubscribe);
      [reflexivity | | discriminate].
    unfold recv_unsubscribe. run. rewrite Hparams, ?Hid. simpl.
    rewrite Hitem. reflexivity.
Qed.

(** *** One response at most, with the request's id *)

Lemma responds_quiet {A : Type} (_id : value) (c : M A) :
  quiet c -> responds _id c.
Proof.
  intros Hc st r st' H. left. specialize (Hc st). rewrite H in Hc. exact Hc.
Qed.

Lemma responds_send (_id msg : value) :
  getitem msg "_id" = Return _id -> responds _id (send msg : M unit).
Proof.
  intros Hmsg st r st' H. right. exists tt, msg.
  injection H as <- <-. simpl. rewrite sent_app. auto.
Qed.

Lemma responds_bind {A B : Type} (_id : value) (c : M A) (k : A -> M B) :
  quiet c -> (forall a, responds _id (k a)) -> responds _id (bind c k).
Proof.
  intros Hc Hk st r st' H. unfold bind in H. specialize (Hc st).
  destruct (c st) as [[a | e] st1]; simpl in Hc.
  - rewrite <- Hc. exact (Hk a st1 r st' H).
  - injection H as _ <-. left. exact Hc.
Qed.

Lemma responds_bind_lift {A B : Type} (_id : value) (o : outcome A)
    (k : A -> M B) :
  (forall a, o = Return a -> responds _id (k a)) ->
  responds _id (bind (lift o) k).
Proof.
  intros Hk st r st' H. unfold bind, lift in H.
  destruct o as [a | e].
  - exact (Hk a eq_refl st r st' H).
  - injection H as _ <-. left. reflexivity.
Qed.

(** Proves [responds _id c] for a handler [c] that reads the id with
    [data['_id']], [H] saying what that is. *)
Ltac prove_responds H :=
  repeat first
    [ apply responds_send; reflexivity
    | match goal with
      | |- responds _ (bind (lift (getitem _ "_id")) _) =>
          let Heq := fresh in
          apply responds_bind_lift; intros ? Heq;
          rewrite H in Heq; injection Heq as <-
      end
    | apply responds_bind; [prove_quiet | intros ?]
    | match goal with
      | |- responds _ (match ?x with _ => _ end) => destruct x
      end
    | apply responds_quiet; prove_quiet ].

Lemma geturl_loop_responds (data _id to_url : value)
    (urls : list (Route ViewClass)) :
  getitem data "_id" = Return _id ->
  responds _id (geturl_loop data to_url urls).
Proof.
  intros Hid. induction urls as [| url rest IH]; simpl.
  - apply responds_quiet. prove_quiet.
  - apply responds_bind; [prove_quiet | intros matched].
    destruct matched; [| exact IH].
    apply responds_bind; [prove_quiet | intros cview].
    assert (Hcreate : responds _id (geturl_create data to_url url))
      by (unfold geturl_create; prove_responds Hid).
    destruct cview as [v |]; [| exact Hcreate].
    simpl. destruct (isinstance v (callback url)); [| exact Hcreate].
    unfold geturl_navigate. prove_responds Hid.
Qed.

Lemma recv__responds (msg_type data _id : value) (func : value -> M unit) :
  recv_ msg_type = Some func ->
  getitem data "_id" = Return _id ->
  responds _id (func data).
Proof.
  unfold recv_. intros H Hid.
  repeat match type of H with
         | (if ?b then _ else _) = _ => destruct b
         end;
    try discriminate; injection H as <-.
  - unfold recv_subscribe, Clients_get, Publications_get.
    prove_responds Hid.
  - unfold recv_unsubscribe. prove_responds Hid.
  - unfold recv_method. prove_responds Hid.
  - unfold recv_geturl.
    apply responds_bind; [prove_quiet | intros params].
    apply responds_bind; [prove_quiet | intros to_url].
    apply geturl_loop_responds. exact Hid.
Qed.

(** Whatever the message, [receive] sends at most one message, and when it
    sends one it returns normally and the message is an object that carries
    the ['_id'] of the request.  In particular a call that raises has sent
    nothing. *)
Theorem receive_one_response_at_most (text : string) (r : outcome unit)
    (st st' : state) :
  receive text st = (r, st') ->
  sent (trace st') = sent (trace st)
  \/ (exists data _id m,
        json_loads text = Return data
        /\ getitem data "_id" = Return _id
        /\ r = Return tt
        /\ sent (trace st') = sent (trace st) ++ [m]
        /\ getitem m "_id" = Return _id).
Proof.
  intros H.
  destruct (json_loads text) as [data | e] eqn:Hloads.
  2: { unfold receive, bind, lift in H. rewrite Hloads in H.
       injection H as <- <-. left. reflexivity. }
  destruct data as [| | | | | | d];
    try (unfold receive, bind, lift in H; rewrite Hloads in H;
         injection H as <- <-; left; reflexivity).
  destruct (Dict.get "_id" d) as [_id |] eqn:Hid.
  2: { unfold receive, bind, lift, dict_get in H.
       rewrite Hloads, Hid in H. injection H as <- <-. left. reflexivity. }
  assert (Hget : getitem (VDict d) "_id" = Return _id)
    by (simpl; rewrite Hid; reflexivity).
  destruct (truthy _id) eqn:Htruthy.
  2: { unfold receive, bind, lift, dict_get in H.
       rewrite Hloads, Hid, Htruthy in H. injection H as <- <-.
       left. reflexivity. }
  assert (Hone : forall msg,
            getitem msg "_id" = Return _id ->
            send msg st = (r, st') ->
            exists data _id m,
              Return (VDict d) = Return data
              /\ getitem data "_id" = Return _id
              /\ r = Return tt
              /\ sent (trace st') = sent (trace st) ++ [m]
              /\ getitem m "_id" = Return _id).
  { intros msg Hmsg [= <- <-]. exists (VDict d), _id, msg.
    simpl trace. rewrite sent_app. auto. }
  destruct (Dict.get "type" d) as [msg_type |] eqn:Htype.
  2: { unfold receive, bind, lift, dict_get, getitem in H.
       rewrite Hloads, Hid, Htruthy, Htype in H. simpl in H.
       right. apply Hone in H; [exact H | reflexivity]. }
  rewrite (receive_reaches_dispatch text d _id msg_type) in H by assumption.
  unfold receive_dispatch in H. destruct (known msg_type).
  2: { unfold bind, lift in H. rewrite Hget in H.
       right. apply Hone in H; [exact H | reflexivity]. }
  destruct (recv_ msg_type) as [func |] eqn:Hfunc.
  2: { injection H as <- <-. left. reflexivity. }
  unfold except_KeyError, bind at 1, emit at 1 in H.
  set (st0 := {| store := store st; view := view st;
                 trace := trace st ++ [Dispatch msg_type] |}) in H.
  assert (Hst0 : sent (trace st0) = sent (trace st))
    by (simpl; rewrite sent_app; apply app_nil_r).
  pose proof (recv__responds msg_type (VDict d) _id func Hfunc Hget st0)
    as Hfunc_responds.
  destruct (func (VDict d) st0) as [r1 st1] eqn:Hrun.
  specialize (Hfunc_responds r1 st1 eq_refl).
  rewrite Hst0 in Hfunc_responds.
  destruct r1 as [[] | e].
  - injection H as <- <-.
    destruct Hfunc_responds as [Hs | (a & m & _ & Hs & Hm)];
      [left; exact Hs |].
    right. exists (VDict d), _id, m. auto.
  - assert (Hs : sent (trace st1) = sent (trace st)).
    { destruct Hfunc_responds as [Hs | (a & m & Hr & _)];
        [exact Hs | discriminate Hr]. }
    destruct e; try (injection H as <- <-; left; exact Hs).
    unfold bind, emit, send, lift, dict_get in H. rewrite Hid in H.
    injection H as <- <-. right.
    exists (VDict d), _id, (bad_format _id).
    simpl trace. rewrite <- app_assoc, sent_app, Hs. auto.
Qed.

(** *** The other paths of the handlers *)

(** A method request whose name is a string that [server_methods] does not
    have gets exactly one [Not found] error that quotes the name, whether or
    not the request has a [params.params]; no method is called and nothing
    else changes. *)
Theorem recv_method_not_found (data _id params : value) (name : string)
    (st : state) :
  getitem data "_id" = Return _id ->
  getitem data "params" = Return params ->
  getitem params "name" = Return (VStr name) ->
  server_methods name = None ->
  recv_method data st =
  (Return tt,
   {| store := store st; view := view st;
      trace := trace st ++
        [Send (envelope _id "Error"
                 (error_params "Not found"
                    ("Method " +:+ name +:+ " not found")))] |}).
Proof.
  intros Hid Hparams Hname Hnone. unfold recv_method. run.
  rewrite Hid. simpl. rewrite Hparams. simpl. rewrite Hname. simpl.
  rewrite Hnone. reflexivity.
Qed.

(** A geturl request whose url no route matches is not answered at all, and
    nothing changes; an empty route table is the extreme case. *)
Theorem recv_geturl_no_match (data params : value) (u : string) (st : state) :
  getitem data "params" = Return params ->
  getitem params "url" = Return (VStr u) ->
  Forall (fun r => pattern r u = false) ddp_urlpatterns ->
  recv_geturl data st = (Return tt, st).
Proof.
  intros Hparams Hurl Hnone. unfold recv_geturl. run.
  rewrite Hparams. simpl. rewrite Hurl. simpl.
  rewrite <- (app_nil_r ddp_urlpatterns).
  rewrite geturl_loop_skip by assumption. reflexivity.
Qed.

(** Only the first route that matches counts: what follows it in the table
    has no effect on what the loop of [recv_geturl] does. *)
Theorem geturl_loop_first_match (data : value) (u : string)
    (pre post : list (Route ViewClass)) (url : Route ViewClass)
    (st : state) :
  Forall (fun r => pattern r u = false) pre ->
  pattern url u = true ->
  geturl_loop data (VStr u) (pre ++ url :: post) st
  = geturl_loop data (VStr u) [url] st.
Proof.
  intros Hpre Hmatch. rewrite geturl_loop_skip by assumption.
  simpl. unfold bind at 1 3. unfold lift at 1 2. simpl.
  rewrite Hmatch. reflexivity.
Qed.

(** The run of the [else] branch when every hook returns: the view that was
    live, if any, is destroyed first, then the new one is constructed for
    this channel, set, created with the url and rendered, and the markup is
    sent. *)
Lemma geturl_create_runs (data _id markup : value) (u : string)
    (url : Route ViewClass) (old : option View) (v2 v3 v4 : View)
    (s1 s2 s3 s4 : Store) (st : state) :
  getitem data "_id" = Return _id ->
  view st = old ->
  match old with
  | Some v => exists v1, ondestroy v (store st) = (Return tt, v1, s1)
  | None => s1 = store st
  end ->
  View_new (callback url) channel_name s1 = (Return v2, s2) ->
  oncreate (VStr u) v2 s2 = (Return tt, v3, s3) ->
  render v3 s3 = (Return markup, v4, s4) ->
  geturl_create data (VStr u) url st =
  (Return tt,
   {| store := s4; view := Some v4;
      trace := trace st ++
        match old with Some _ => [CallOndestroy] | None => [] end ++
        [CallNew (callback url) channel_name; CallOncreate (VStr u);
         CallRender; Send (envelope _id "Success" markup)] |}).
Proof.
  intros Hid Hview Hold Hnew Hcreate Hrender.
  unfold geturl_create, call_view, with_store. run. rewrite Hview.
  destruct old as [v |].
  - destruct Hold as [v1 Hdestroy]. simpl. rewrite Hview, Hdestroy. simpl.
    rewrite Hnew. simpl. rewrite Hcreate. simpl. rewrite Hid. simpl.
    rewrite Hrender. simpl. repeat rewrite <- app_assoc. reflexivity.
  - subst s1. simpl. rewrite Hnew. simpl. rewrite Hcreate. simpl.
    rewrite Hid. simpl. rewrite Hrender. simpl.
    repeat rewrite <- app_assoc. reflexivity.
Qed.

(** A geturl request on a connection with no live view, for a url that a
    route matches: the view of the first such route is constructed for this
    channel, created with the url and rendered, in this order, it becomes
    the live view, and exactly one Success response carries the markup. *)
Theorem recv_geturl_first_view (data _id params markup : value) (u : string)
    (pre post : list (Route ViewClass)) (url : Route ViewClass)
    (v2 v3 v4 : View) (s2 s3 s4 : Store) (st : state) :
  getitem data "_id" = Return _id ->
  getitem data "params" = Return params ->
  getitem params "url" = Return (VStr u) ->
  ddp_urlpatterns = pre ++ url :: post ->
  Forall (fun r => pattern r u = false) pre ->
  pattern url u = true ->
  view st = None ->
  View_new (callback url) channel_name (store st) = (Return v2, s2) ->
  oncreate (VStr u) v2 s2 = (Return tt, v3, s3) ->
  render v3 s3 = (Return markup, v4, s4) ->
  recv_geturl data st =
  (Return tt,
   {| store := s4; view := Some v4;
      trace := trace st ++
        [CallNew (callback url) channel_name; CallOncreate (VStr u);
         CallRender; Send (envelope _id "Success" markup)] |}).
Proof.
  intros Hid Hparams Hurl Hroutes Hpre Hmatch Hview Hnew Hcreate Hrender.
  unfold recv_geturl. unfold bind at 1 2. unfold lift at 1 2.
  rewrite Hparams, Hurl, Hroutes, geturl_loop_skip by assumption.
  simpl. unfold bind at 1. unfold lift at 1. simpl. rewrite Hmatch.
  unfold bind at 1. unfold get_view at 1. rewrite Hview.
  exact (geturl_create_runs data _id markup u url None v2 v3 v4
           (store st) s2 s3 s4 st Hid Hview eq_refl Hnew Hcreate Hrender).
Qed.

(** A geturl request on a connection whose live view is not of the class of
    the first matching route: the live view's [ondestroy] is called before
    the new view is constructed, and the new view replaces it; then as for
    a first view. *)
Theorem recv_geturl_replaces_view (data _id params markup : value)
    (u : string) (pre post : list (Route ViewClass)) (url : Route ViewClass)
    (v v1 v2 v3 v4 : View) (s1 s2 s3 s4 : Store) (st : state) :
  getitem data "_id" = Return _id ->
  getitem data "params" = Return params ->
  getitem params "url" = Return (VStr u) ->
  ddp_urlpatterns = pre ++ url :: post ->
  Forall (fun r => pattern r u = false) pre ->
  pattern url u = true ->
  view st = Some v ->
  isinstance v (callback url) = false ->
  ondestroy v (store st) = (Return tt, v1, s1) ->
  View_new (callback url) channel_name s1 = (Return v2, s2) ->
  oncreate (VStr u) v2 s2 = (Return tt, v3, s3) ->
  render v3 s3 = (Return markup, v4, s4) ->
  recv_geturl data st =
  (Return tt,
   {| store := s4; view := Some v4;
      trace := trace st ++
        [CallOndestroy; CallNew (callback url) channel_name;
         CallOncreate (VStr u); CallRender;
         Send (envelope _id "Success" markup)] |}).
Proof.
  intros Hid Hparams Hurl Hroutes Hpre Hmatch Hview Hinst Hdestroy Hnew
    Hcreate Hrender.
  unfold recv_geturl. unfold bind at 1 2. unfold lift at 1 2.
  rewrite Hparams, Hurl, Hroutes, geturl_loop_skip by assumption.
  simpl. unfold bind at 1. unfold lift at 1. simpl. rewrite Hmatch.
  unfold bind at 1. unfold get_view at 1. rewrite Hview, Hinst.
  exact (geturl_create_runs data _id markup u url (Some v) v2 v3 v4
           s1 s2 s3 s4 st Hid Hview (ex_intro _ v1 Hdestroy)
           Hnew Hcreate Hrender).
Qed.

Lemma Publications_get_missing (name : value) (st : state) :
  name = VNone \/ publications (store st) !! format name = None ->
  Publications_get name st = (Raise DoesNotExist, st).
Proof.
  intros H. unfold Publications_get, objects_get. run.
  destruct name; try reflexivity;
    destruct H as [H | H]; try discriminate H;
    unfold lift; simpl in H |- *; rewrite H; reflexivity.
Qed.

(** A well-formed subscribe request for a publication that does not exist
    raises [DoesNotExist] at the lookup: no Subscription is initialised or
    saved, nothing is sent and nothing changes. *)
Theorem recv_subscribe_unknown_publication (data _id name parent : value)
    (params : list (string * value)) (client : Client) (st : state) :
  getitem data "_id" = Return _id ->
  getitem data "params" = Return (VDict params) ->
  Dict.get "name" params = Some name ->
  Dict.get "_id" params = Some parent ->
  clients (store st) !! channel_name = Some client ->
  name = VNone \/ publications (store st) !! format name = None ->
  recv_subscribe data st = (Raise DoesNotExist, st).
Proof.
  intros Hid Hparams Hname Hparent Hclient Hpub.
  assert (Hfirst : first_missing ["name"; "_id"] (VDict params) = Return None).
  { simpl. unfold Dict.mem. rewrite Hname, Hparent. reflexivity. }
  unfold recv_subscribe, bind at 1 2 3. unfold lift at 1 2.
  rewrite Hparams, Hid. rewrite (Clients_get_found client) by assumption.
  unfold bind at 1. unfold lift at 1. rewrite Hfirst.
  change (negb (instance_truthy client)) with false. cbv iota.
  unfold bind at 1. unfold lift at 1, getitem. rewrite Hname.
  unfold bind at 1. rewrite Publications_get_missing by assumption.
  reflexivity.
Qed.

(** A subscribe request whose ['params'] is present but is not an object
    never creates a Subscription.  The key test [key not in params] then
    means membership in a list, containment in a string, and fails on
    anything else, so the request is answered with a [Bad format] error
    naming ['name'] or ['_id'], or the handler raises [TypeError] having
    sent nothing; either way the store and the view are as they were. *)
Theorem recv_subscribe_params_not_an_object (data _id params : value)
    (client : Client) (st : state) :
  getitem data "_id" = Return _id ->
  getitem data "params" = Return params ->
  (forall p, params <> VDict p) ->
  clients (store st) !! channel_name = Some client ->
  recv_subscribe data st = (Raise TypeError, st)
  \/ exists key,
       (key = "name" \/ key = "_id")
       /\ recv_subscribe data st =
          (Return tt,
           {| store := store st; view := view st;
              trace := trace st ++
                [Send (envelope _id "Error"
                         (error_params "Bad format"
                            ("Subscription " +:+ key +:+ " not found")))] |}).
Proof.
  intros Hid Hparams Hnot Hclient.
  assert (Hitem : forall k, getitem params k = Raise TypeError).
  { intros k. destruct params; try reflexivity.
    exfalso. exact (Hnot _ eq_refl). }
  assert (Hrun : recv_subscribe data st =
    match first_missing ["name"; "_id"] params with
    | Raise e => (Raise e, st)
    | Return None => (Raise TypeError, st)
    | Return (Some key) =>
        (Return tt,
         {| store := store st; view := view st;
            trace := trace st ++
              [Send (envelope _id "Error"
                       (error_params "Bad format"
                          ("Subscription " +:+ key +:+ " not found")))] |})
    end).
  { unfold recv_subscribe, bind at 1 2 3. unfold lift at 1 2.
    rewrite Hparams, Hid. rewrite (Clients_get_found client) by assumption.
    unfold bind at 1. unfold lift at 1.
    destruct (first_missing ["name"; "_id"] params) as [[key |] | e];
      [reflexivity | | reflexivity].
    change (negb (instance_truthy client)) with false. cbv iota.
    unfold bind at 1. unfold lift at 1. rewrite Hitem. reflexivity. }
  rewrite Hrun. clear Hrun. simpl.
  destruct (contains "name" params) as [[] | e] eqn:Hname.
  - destruct (contains "_id" params) as [[] | e] eqn:Hkey.
    + left. reflexivity.
    + right. exists "_id". auto.
    + left. destruct params; try discriminate Hkey;
        injection Hkey as <-; reflexivity.
  - right. exists "name". auto.
  - left. destruct params; try discriminate Hname;
      injection Hname as <-; reflexivity.
Qed.

(** *** The push path, whatever the event *)

(** [handle_ddp] never touches the store or the view, and sends at most one
    message, which is then a DDP envelope of type insert, change or remove
    (an envelope without ['_id']).  When it raises it has sent nothing. *)
Theorem handle_ddp_frame (data : value) (r : outcome unit) (st st' : state) :
  handle_ddp data st = (r, st') ->
  store st' = store st
  /\ view st' = view st
  /\ (trace st' = trace st
      \/ exists type params,
           r = Return tt
           /\ In type ["insert"; "change"; "remove"]
           /\ trace st' = trace st ++ [Send (ddp type params)]).
Proof.
  unfold handle_ddp, ddp_type, insert_component, remove_component.
  unfold bind, lift, send, emit, ret.
  destruct (getitem data "params") as [params | e];
    [| intros [= <- <-]; auto].
  destruct (getitem params "type") as [t | e];
    [| intros [= <- <-]; auto].
  destruct (eq_str t "inserted").
  { destruct (getitem params "instance") as [i | e];
      intros [= <- <-]; simpl; repeat split; auto.
    right. exists "insert", i. simpl. auto. }
  destruct (eq_str t "changed").
  { destruct (getitem params "instance") as [i | e];
      intros [= <- <-]; simpl; repeat split; auto.
    right. exists "change", i. simpl. auto. }
  destruct (eq_str t "removed"); [| intros [= <- <-]; auto].
  destruct (getitem params "_id") as [i | e];
    [| intros [= <- <-]; auto].
  destruct (getitem params "parent") as [p | e];
    intros [= <- <-]; simpl; repeat split; auto.
  right. exists "remove", (VDict [("_id", i); ("parent", p)]). simpl. auto 6.
Qed.

(** An [inserted] or [changed] event without an ['instance'], or a
    [removed] event without an ['_id'] or a ['parent'], makes [handle_ddp]
    raise [KeyError] for the first key it misses; nothing is sent: on this
    path a missing key is not turned into an error envelope. *)
Theorem handle_ddp_missing_payload (data : value)
    (params : list (string * value)) (t : value) (key : string)
    (st : state) :
  getitem data "params" = Return (VDict params) ->
  Dict.get "type" params = Some t ->
  ((t = VStr "inserted" \/ t = VStr "changed")
   /\ key = "instance" /\ Dict.get "instance" params = None)
  \/ (t = VStr "removed" /\ key = "_id" /\ Dict.get "_id" params = None)
  \/ (t = VStr "removed" /\ key = "parent"
      /\ Dict.get "_id" params <> None /\ Dict.get "parent" params = None) ->
  handle_ddp data st = (Raise (KeyError (VStr key)), st).
Proof.
  intros Hparams Htype Hcase.
  unfold handle_ddp, ddp_type, insert_component, remove_component.
  unfold bind, lift. rewrite Hparams. unfold getitem. rewrite Htype.
  destruct Hcase as [([-> | ->] & -> & Hnone)
                    | [(-> & -> & Hnone) | (-> & -> & Hsome & Hnone)]];
    simpl; rewrite ?Hnone; try reflexivity.
  destruct (Dict.get "_id" params); [reflexivity | congruence].
Qed.

(** *** The life of a connection *)

Lemma filter_all {A : Type} (f : A -> bool) (l : list A) :
  Forall (fun x => f x = true) l -> List.filter f l = l.
Proof.
  induction 1 as [| x l Hx _ IH]; simpl; [reflexivity |].
  rewrite Hx, IH. reflexivity.
Qed.

Lemma filter_twice {A : Type} (f : A -> bool) (l : list A) :
  List.filter f (List.filter f l) = List.filter f l.
Proof.
  apply filter_all. apply List.Forall_forall. intros x Hx.
  apply List.filter_In in Hx. apply Hx.
Qed.

(** [connect] accepts the socket, adds the Connection row of the channel,
    owned by the user [get_user] found or by nobody when that is the
    anonymous user, and sends exactly one message, [{type: Connected}];
    the rows of other channels and the Subscriptions are as [get_user]
    left them.  From then on the lookup of the client by the handlers
    succeeds. *)
Theorem connect_registers_the_channel (sk : socket) (u : user_object)
    (s1 : Store) :
  get_user (store (consumer sk)) = (Return u, s1) ->
  let row := {| client_channel := channel_name;
                client_user := match u with
                               | User id => Some id
                               | AnonymousUser => None
                               end |} in
  exists sk',
    connect sk = (Return tt, sk')
    /\ accepted sk' = true
    /\ clients (store (consumer sk')) !! channel_name = Some row
    /\ (forall ch, ch <> channel_name ->
        clients (store (consumer sk')) !! ch = clients s1 !! ch)
    /\ subscriptions (store (consumer sk')) = subscriptions s1
    /\ view (consumer sk') = view (consumer sk)
    /\ trace (consumer sk') =
         trace (consumer sk) ++ [Send (VDict [("type", VStr "Connected")])]
    /\ Clients_get channel_name (consumer sk')
       = (Return row, consumer sk').
Proof.
  intros Huser row. eexists. split.
  - unfold connect, Clients_create, with_store. run. rewrite Huser. simpl.
    reflexivity.
  - simpl. repeat split.
    + apply lookup_insert_eq.
    + intros ch Hch. apply lookup_insert_ne. congruence.
    + apply Clients_get_found. simpl. apply lookup_insert_eq.
Qed.

(** [disconnect] sends nothing and removes the Connection row of the
    channel together with the Subscriptions of that Connection, and nothing
    else: the rows of other channels and their Subscriptions stay, in
    their order.  With no row for the channel it only drops such
    Subscriptions, so a second [disconnect] changes nothing. *)
Theorem disconnect_cascades (close_code : value) (st : state) :
  exists st',
    disconnect close_code st = (Return tt, st')
    /\ clients (store st') !! channel_name = None
    /\ (forall ch, ch <> channel_name ->
        clients (store st') !! ch = clients (store st) !! ch)
    /\ subscriptions (store st')
       = List.filter (of_other_channel channel_name)
                     (subscriptions (store st))
    /\ publications (store st') = publications (store st)
    /\ view st' = view st
    /\ trace st' = trace st
    /\ disconnect close_code st' = (Return tt, st').
Proof.
  eexists. split; [reflexivity |]. simpl. repeat split.
  - apply lookup_delete_eq.
  - intros ch Hch. apply lookup_delete_ne. congruence.
  - unfold disconnect, Clients_delete, with_store. simpl.
    rewrite filter_twice.
    rewrite (delete_id (delete channel_name (clients (store st))))
      by apply lookup_delete_eq.
    reflexivity.
Qed.

(** The run of [recv_subscribe] on a well-formed request. *)
Lemma recv_subscribe_runs (data _id name parent : value)
    (params : list (string * value)) (client : Client) (pub : Publication)
    (st : state) :
  getitem data "_id" = Return _id ->
  getitem data "params" = Return (VDict params) ->
  Dict.get "name" params = Some name ->
  Dict.get "_id" params = Some parent ->
  clients (store st) !! channel_name = Some client ->
  name <> VNone ->
  publications (store st) !! format name = Some pub ->
  let sub := {| sub_id := None; sub_publication := pub;
                sub_parent := parent; sub_client := client |} in
  recv_subscribe data st =
  (Return tt,
   {| store := snd (Subscriptions_save sub
                      (Subscriptions_init sub (store st)));
      view := view st;
      trace := trace st ++
        [CallInit sub; CallSave sub;
         Send (envelope _id "Success"
                 (VDict [("name", name);
                         ("sub_id", VInt (next_id (store st)))]))] |}).
Proof.
  intros Hid Hparams Hname Hparent Hclient Hnone Hpub sub.
  assert (Hfirst : first_missing ["name"; "_id"] (VDict params) = Return None).
  { simpl. unfold Dict.mem. rewrite Hname, Hparent. reflexivity. }
  unfold recv_subscribe, bind at 1 2 3. unfold lift at 1 2.
  rewrite Hparams, Hid. rewrite (Clients_get_found client) by assumption.
  unfold bind at 1. unfold lift at 1. rewrite Hfirst.
  change (negb (instance_truthy client)) with false. cbv iota.
  unfold bind at 1. unfold lift at 1, getitem. rewrite Hname.
  unfold bind at 1. rewrite (Publications_get_found name pub) by assumption.
  unfold bind at 1. unfold lift at 1. rewrite Hparent.
  run. repeat rewrite <- app_assoc. reflexivity.
Qed.

(** A whole session: on a store with no Subscription of the channel,
    [connect], then a well-formed [recv_subscribe] for an existing
    publication, then [disconnect], all return normally; two messages were
    sent, Connected and the Success for the subscription; and the
    Subscription the session created is gone with its Connection: the
    table of Subscriptions is as it was before the session, and the channel
    has no Connection row. *)
Theorem session_leaves_no_subscription (sk : socket) (u : user_object)
    (data _id name parent close_code : value)
    (params : list (string * value)) (pub : Publication) :
  let st := consumer sk in
  get_user (store st) = (Return u, store st) ->
  Forall (fun sub => client_channel (sub_client sub) <> channel_name)
         (subscriptions (store st)) ->
  getitem data "_id" = Return _id ->
  getitem data "params" = Return (VDict params) ->
  Dict.get "name" params = Some name ->
  Dict.get "_id" params = Some parent ->
  name <> VNone ->
  publications (store st) !! format name = Some pub ->
  exists sk1 st2 st3,
    connect sk = (Return tt, sk1)
    /\ recv_subscribe data (consumer sk1) = (Return tt, st2)
    /\ disconnect close_code st2 = (Return tt, st3)
    /\ length (subscriptions (store st2))
       = S (length (subscriptions (store st)))
    /\ subscriptions (store st3) = subscriptions (store st)
    /\ clients (store st3) = delete channel_name (clients (store st))
    /\ sent (trace st3) =
         sent (trace st) ++
         [VDict [("type", VStr "Connected")];
          envelope _id "Success"
            (VDict [("name", name);
                    ("sub_id", VInt (next_id (store st)))])].
Proof.
  intros st Huser Hnone Hid Hparams Hname Hparent Hnamed Hpub.
  set (row := {| client_channel := channel_name;
                 client_user := match u with
                                | User id => Some id
                                | AnonymousUser => None
                                end |}).
  set (st1 := {| store := {| clients := <[channel_name := row]>
                                          (clients (store st));
                             publications := publications (store st);
                             subscriptions := subscriptions (store st);
                             next_id := next_id (store st);
                             layer := layer (store st) |};
                 view := view st;
                 trace := trace st ++
                          [Send (VDict [("type", VStr "Connected")])] |}).
  assert (Hconnect : connect sk =
                     (Return tt, {| accepted := true; consumer := st1 |})).
  { unfold connect, Clients_create, with_store. run. fold st.
    rewrite Huser. reflexivity. }
  assert (Hsub := recv_subscribe_runs data _id name parent params row pub st1
                    Hid Hparams Hname Hparent (lookup_insert_eq _ _ _)
                    Hnamed Hpub).
  cbv zeta in Hsub.
  eexists _, _, _. split; [exact Hconnect |].
  split; [exact Hsub |]. split; [reflexivity |].
  simpl. repeat split.
  - rewrite length_app. simpl. lia.
  - rewrite List.filter_app. simpl. rewrite String.eqb_refl. simpl.
    rewrite app_nil_r. apply filter_all.
    eapply List.Forall_impl; [| exact Hnone]. intros sub Hsub'.
    simpl in Hsub'.
    apply negb_true_iff, String.eqb_neq. exact Hsub'.
  - apply delete_insert_eq.
  - rewrite !sent_app. simpl. rewrite <- app_assoc. reflexivity.
Qed.

(** *** When a call fails half way *)

(** A method request whose ['name'] is not a string fails at the lookup of
    the method with [TypeError]: no method is called and nothing is sent,
    not even the [Not found] error. *)
Theorem recv_method_name_not_a_string (data _id params name : value)
    (st : state) :
  getitem data "_id" = Return _id ->
  getitem data "params" = Return params ->
  getitem params "name" = Return name ->
  (forall n, name <> VStr n) ->
  recv_method data st = (Raise TypeError, st).
Proof.
  intros Hid Hparams Hname Hnot. unfold recv_method. run.
  rewrite Hid. simpl. rewrite Hparams. simpl. rewrite Hname. simpl.
  destruct name; try reflexivity. exfalso. exact (Hnot _ eq_refl).
Qed.

(** When the view of the matching route is constructed but its [oncreate]
    raises, the request is left without a response while the switch has
    already happened: the view that was live has been destroyed and the
    connection now holds the new view, as [oncreate] left it. *)
Theorem recv_geturl_oncreate_raises (data params : value) (u : string)
    (pre post : list (Route ViewClass)) (url : Route ViewClass)
    (v v1 v2 v3 : View) (s1 s2 s3 : Store) (e : exn) (st : state) :
  getitem data "params" = Return params ->
  getitem params "url" = Return (VStr u) ->
  ddp_urlpatterns = pre ++ url :: post ->
  Forall (fun r => pattern r u = false) pre ->
  pattern url u = true ->
  view st = Some v ->
  isinstance v (callback url) = false ->
  ondestroy v (store st) = (Return tt, v1, s1) ->
  View_new (callback url) channel_name s1 = (Return v2, s2) ->
  oncreate (VStr u) v2 s2 = (Raise e, v3, s3) ->
  recv_geturl data st =
  (Raise e,
   {| store := s3; view := Some v3;
      trace := trace st ++
        [CallOndestroy; CallNew (callback url) channel_name;
         CallOncreate (VStr u)] |}).
Proof.
  intros Hparams Hurl Hroutes Hpre Hmatch Hview Hinst Hdestroy Hnew Hcreate.
  unfold recv_geturl. unfold bind at 1 2. unfold lift at 1 2.
  rewrite Hparams, Hurl, Hroutes, geturl_loop_skip by assumption.
  simpl. unfold bind at 1. unfold lift at 1. simpl. rewrite Hmatch.
  unfold bind at 1. unfold get_view at 1. rewrite Hview, Hinst.
  unfold geturl_create, call_view, with_store. run.
  rewrite Hview. simpl. rewrite Hview, Hdestroy. simpl. rewrite Hnew. simpl.
  rewrite Hcreate. simpl. repeat rewrite <- app_assoc. reflexivity.
Qed.

End Consumer.

(** ** The properties on the example deployment *)

Lemma receive_without_id_witness :
  receive Example.isinstance Example.View_new Example.onurl
    Example.ondestroy Example.oncreate Example.render
    Example.ddp_urlpatterns Example.server_methods
    (Example.loads (VDict [("type", VStr "method")])) Example.repr
    Example.channel_name "{'type': 'method'}" Example.connected
  = (Return tt, Example.connected).
Proof.
  apply (receive_without_id _ _ _ _ _ _ _ _ _ _ _ _ [("type", VStr "method")]);
    reflexivity.
Defined.

Lemma receive_falsy_id_witness :
  receive Example.isinstance Example.View_new Example.onurl
    Example.ondestroy Example.oncreate Example.render
    Example.ddp_urlpatterns Example.server_methods
    (Example.loads (VDict [("_id", VInt 0); ("type", VStr "method")]))
    Example.repr Example.channel_name "{'_id': 0, 'type': 'method'}"
    Example.connected
  = (Return tt, Example.connected).
Proof.
  apply (receive_falsy_id _ _ _ _ _ _ _ _ _ _ _ _
           [("_id", VInt 0); ("type", VStr "method")] (VInt 0));
    [reflexivity | reflexivity | right; left; reflexivity].
Defined.

Lemma handle_ddp_by_type_witness :
  handle_ddp (VDict [("type", VStr "handle.ddp");
                     ("params", VDict [("type", VStr "moved")])])
    Example.subscribed
  = (Return tt, Example.subscribed)
  /\ handle_ddp (inserted_event (VStr "t1")) Example.subscribed
     = (Return tt,
        {| store := store Example.subscribed;
           view := view Example.subscribed;
           trace := trace Example.subscribed
                    ++ [Send (ddp "insert" (VStr "t1"))] |}).
Proof.
  split.
  - apply (proj1 (handle_ddp_by_type
                    (VDict [("type", VStr "handle.ddp");
                            ("params", VDict [("type", VStr "moved")])])
                    (VDict [("type", VStr "moved")]) (VStr "moved")
                    Example.subscribed eq_refl eq_refl));
      discriminate.
  - apply (proj1 (proj1 (proj2 (handle_ddp_by_type
                    (inserted_event (VStr "t1"))
                    (VDict [("type", VStr "inserted");
                            ("instance", VStr "t1")])
                    (VStr "inserted") Example.subscribed eq_refl eq_refl))
                  (VStr "t1") eq_refl)).
    reflexivity.
Defined.

Lemma recv_unsubscribe_only_acknowledges_witness :
  exists st',
    recv_unsubscribe
      (Example.request "7" "unsubscribe" (VDict [("name", VStr "tasks")]))
      Example.subscribed
    = (Return tt, st')
    /\ store st' = store Example.subscribed
    /\ view st' = view Example.subscribed
    /\ trace st' = trace Example.subscribed ++
         [Send (VDict [("_id", VStr "7"); ("type", VStr "unsubscribed");
                       ("message", VStr "Got unsub");
                       ("params", VDict [("name", VStr "tasks")])])].
Proof.
  apply (recv_unsubscribe_only_acknowledges _ (VStr "7")
           (VDict [("name", VStr "tasks")]) (VStr "tasks"));
    reflexivity.
Defined.

Lemma recv_subscribe_missing_key_witness :
  exists st',
    recv_subscribe Example.repr Example.channel_name
      (Example.request "4" "subscribe" (VDict [("_id", VStr "root")]))
      Example.connected
    = (Return tt, st')
    /\ store st' = store Example.connected
    /\ view st' = view Example.connected
    /\ trace st' = trace Example.connected ++
         [Send (envelope (VStr "4") "Error"
                  (error_params "Bad format" "Subscription name not found"))].
Proof.
  apply (recv_subscribe_missing_key Example.repr Example.channel_name _
           (VStr "4") [("_id", VStr "root")] Example.client);
    [reflexivity | reflexivity | vm_compute; reflexivity
    | left; reflexivity].
Defined.

Lemma recv_subscribe_creates_subscription_witness :
  let sub := {| sub_id := None; sub_publication := Example.tasks;
                sub_parent := VStr "root"; sub_client := Example.client |} in
  let row := {| sub_id := Some 1; sub_publication := Example.tasks;
                sub_parent := VStr "root"; sub_client := Example.client |} in
  exists st',
    recv_subscribe Example.repr Example.channel_name
      (Example.request "1" "subscribe"
         (VDict [("name", VStr "tasks"); ("_id", VStr "root")]))
      Example.connected
    = (Return tt, st')
    /\ store st' = snd (Subscriptions_save sub
                          (Subscriptions_init sub (store Example.connected)))
    /\ subscriptions (store st') = [row]
    /\ view st' = view Example.connected
    /\ trace st' =
         [CallInit sub; CallSave sub;
          Send (envelope (VStr "1") "Success"
                  (VDict [("name", VStr "tasks"); ("sub_id", VInt 1)]))].
Proof.
  apply (recv_subscribe_creates_subscription Example.repr
           Example.channel_name _ (VStr "1") (VStr "tasks") (VStr "root")
           [("name", VStr "tasks"); ("_id", VStr "root")]
           Example.client Example.tasks Example.connected);
    [reflexivity | reflexivity | reflexivity | reflexivity
    | vm_compute; reflexivity | discriminate | vm_compute; reflexivity].
Defined.

Lemma recv_method_response_witness :
  exists st',
    recv_method Example.server_methods Example.repr
      (Example.request "2" "method"
         (VDict [("name", VStr "echo"); ("params", VList [])]))
      Example.connected
    = (Return tt, st')
    /\ store st' = store Example.connected
    /\ view st' = view Example.connected
    /\ trace st' = trace Example.connected ++
         [CallMethod (VStr "echo") (VList []);
          Send (envelope (VStr "2") "Error" (VList []))].
Proof.
  apply (recv_method_response Example.server_methods Example.repr _
           (VStr "2") (VDict [("name", VStr "echo"); ("params", VList [])])
           (VList []) (VList []) "echo" Example.echo
           (store Example.connected) Example.connected);
    reflexivity.
Defined.

Lemma receive_handler_KeyError_witness :
  exists st',
    receive Example.isinstance Example.View_new Example.onurl
      Example.ondestroy Example.oncreate Example.render
      Example.ddp_urlpatterns Example.server_methods
      (Example.loads (VDict [("_id", VStr "3"); ("type", VStr "method")]))
      Example.repr Example.channel_name "{'_id': '3', 'type': 'method'}"
      Example.connected
    = (Return tt, st')
    /\ store st' = store Example.connected
    /\ view st' = view Example.connected
    /\ trace st' =
         (trace Example.connected ++ [Dispatch (VStr "method")]) ++
         [Printed (KeyError (VStr "params")); Send (bad_format (VStr "3"))]
    /\ sent (trace st') =
         sent (trace Example.connected) ++ [bad_format (VStr "3")].
Proof.
  apply (receive_handler_KeyError Example.isinstance Example.View_new
           Example.onurl Example.ondestroy Example.oncreate Example.render
           Example.ddp_urlpatterns Example.server_methods _ Example.repr
           Example.channel_name _
           [("_id", VStr "3"); ("type", VStr "method")]
           (VStr "3") (VStr "method") (VStr "params")
           (recv_method Example.server_methods Example.repr)
           Example.connected
           {| store := store Example.connected;
              view := view Example.connected;
              trace := trace Example.connected
                       ++ [Dispatch (VStr "method")] |});
    reflexivity.
Defined.

Lemma recv_geturl_navigates_witness :
  exists st',
    recv_geturl Example.isinstance Example.View_new Example.onurl
      Example.ondestroy Example.oncreate Example.render
      Example.ddp_urlpatterns Example.channel_name
      (Example.request "6" "geturl" (VDict [("url", VStr "/tasks/42")]))
      Example.viewing
    = (Return tt, st')
    /\ store st' = store Example.viewing
    /\ view st' = Some ("TaskView", "/tasks/42")
    /\ trace st' = trace Example.viewing ++
         [CallOnurl (VStr "/tasks/42");
          Send (envelope (VStr "6") "Success" (VList []))].
Proof.
  apply (recv_geturl_navigates Example.isinstance Example.View_new
           Example.onurl Example.ondestroy Example.oncreate Example.render
           Example.ddp_urlpatterns Example.channel_name _
           (VStr "6") (VDict [("url", VStr "/tasks/42")]) (VBool true)
           "/tasks/42"
           [ {| pattern := String.prefix "/about";
                callback := "AboutView" |} ]
           []
           {| pattern := String.prefix "/tasks"; callback := "TaskView" |}
           ("TaskView", "/tasks") ("TaskView", "/tasks/42")
           (store Example.viewing) Example.viewing);
    try reflexivity.
  repeat constructor.
Defined.

(** C6 as the spec words it does not hold: a request to navigate within the
    route of the live view, accepted by [onurl], is answered with the empty
    list as params, which is not the empty object. *)
Lemma recv_geturl_navigate_params_not_object :
  let data := Example.request "6" "geturl"
                (VDict [("url", VStr "/tasks/42")]) in
  let st' := snd (recv_geturl Example.isinstance Example.View_new
                    Example.onurl Example.ondestroy Example.oncreate
                    Example.render Example.ddp_urlpatterns
                    Example.channel_name data Example.viewing) in
  sent (trace st') = [envelope (VStr "6") "Success" (VList [])]
  /\ sent (trace st') <> [envelope (VStr "6") "Success" (VDict [])].
Proof.
  split; [reflexivity | discriminate].
Qed.

(** C5 on the example: a well-formed subscribe request on a channel without
    a Connection row.  [recv_subscribe] raises [DoesNotExist] at the lookup
    of the client and sends nothing, and [receive], which catches
    [KeyError] only, lets the exception through: no [Client not found]
    error reaches the client. *)
Theorem recv_subscribe_unknown_channel_raises :
  let data := Example.request "5" "subscribe"
                (VDict [("name", VStr "tasks"); ("_id", VStr "root")]) in
  recv_subscribe Example.repr Example.channel_name data
    Example.unknown_channel
  = (Raise DoesNotExist, Example.unknown_channel)
  /\ (let '(r, st') :=
        receive Example.isinstance Example.View_new Example.onurl
          Example.ondestroy Example.oncreate Example.render
          Example.ddp_urlpatterns Example.server_methods
          (Example.loads data) Example.repr Example.channel_name
          "{'_id': '5', 'type': 'subscribe', ...}" Example.unknown_channel in
      r = Raise DoesNotExist /\ sent (trace st') = []).
Proof.
  split.
  - apply (recv_subscribe_without_client Example.repr Example.channel_name
             _ (VStr "5")
             (VDict [("name", VStr "tasks"); ("_id", VStr "root")]));
      reflexivity.
  - vm_compute. split; reflexivity.
Qed.

(** ** The further properties on the example deployment *)

Lemma receive_missing_type_witness :
  sent (trace (snd
    (receive Example.isinstance Example.View_new Example.onurl
       Example.ondestroy Example.oncreate Example.render
       Example.ddp_urlpatterns Example.server_methods
       (Example.loads (VDict [("_id", VStr "8")])) Example.repr
       Example.channel_name "{'_id': '8'}" Example.connected)))
  = [envelope (VStr "8") "Error"
       (error_params "Bad message" "message type not found")].
Proof.
  rewrite (receive_missing_type _ _ _ _ _ _ _ _ _ _ _ _
             [("_id", VStr "8")] (VStr "8")); reflexivity.
Defined.

Lemma receive_unknown_type_witness :
  sent (trace (snd
    (receive Example.isinstance Example.View_new Example.onurl
       Example.ondestroy Example.oncreate Example.render
       Example.ddp_urlpatterns Example.server_methods
       (Example.loads (VDict [("_id", VStr "9"); ("type", VStr "login")]))
       Example.repr Example.channel_name "{'_id': '9', 'type': 'login'}"
       Example.connected)))
  = [envelope (VStr "9") "Error"
       (error_params "Bad message type" "login not recognized")].
Proof.
  rewrite (receive_unknown_type _ _ _ _ _ _ _ _ _ _ _ _
             [("_id", VStr "9"); ("type", VStr "login")]
             (VStr "9") (VStr "login"));
    try reflexivity.
  repeat constructor; discriminate.
Defined.

Lemma receive_not_an_object_witness :
  receive Example.isinstance Example.View_new Example.onurl
    Example.ondestroy Example.oncreate Example.render
    Example.ddp_urlpatterns Example.server_methods
    (Example.loads (VList [VInt 1])) Example.repr
    Example.channel_name "[1]" Example.connected
  = (Raise AttributeError, Example.connected).
Proof.
  apply (receive_not_an_object _ _ _ _ _ _ _ _ _ _ _ _ (VList [VInt 1]));
    [reflexivity | discriminate].
Defined.

Lemma receive_is_the_handler_witness :
  receive Example.isinstance Example.View_new Example.onurl
    Example.ondestroy Example.oncreate Example.render
    Example.ddp_urlpatterns Example.server_methods
    (Example.loads (Example.request "2" "method"
                      (VDict [("name", VInt 5)])))
    Example.repr Example.channel_name "{'_id': '2', 'type': 'method', ...}"
    Example.connected
  = (Raise TypeError,
     {| store := store Example.connected; view := view Example.connected;
        trace := [Dispatch (VStr "method")] |}).
Proof.
  apply (receive_is_the_handler Example.isinstance Example.View_new
           Example.onurl Example.ondestroy Example.oncreate Example.render
           Example.ddp_urlpatterns Example.server_methods _ Example.repr
           Example.channel_name _
           [("_id", VStr "2"); ("type", VStr "method");
            ("params", VDict [("name", VInt 5)])]
           (VStr "2") (VStr "method")
           (recv_method Example.server_methods Example.repr));
    try reflexivity.
  discriminate.
Defined.

Lemma receive_params_not_an_object_witness :
  receive Example.isinstance Example.View_new Example.onurl
    Example.ondestroy Example.oncreate Example.render
    Example.ddp_urlpatterns Example.server_methods
    (Example.loads (Example.request "6" "geturl" (VStr "/tasks")))
    Example.repr Example.channel_name
    "{'_id': '6', 'type': 'geturl', 'params': '/tasks'}" Example.connected
  = (Raise TypeError,
     {| store := store Example.connected; view := view Example.connected;
        trace := trace Example.connected ++ [Dispatch (VStr "geturl")] |}).
Proof.
  apply (receive_params_not_an_object _ _ _ _ _ _ _ _ _ _ _ _
           [("_id", VStr "6"); ("type", VStr "geturl");
            ("params", VStr "/tasks")]
           (VStr "6") (VStr "geturl") (VStr "/tasks"));
    try reflexivity; [right; left; reflexivity | discriminate].
Defined.

Lemma receive_one_response_at_most_witness :
  let out :=
    receive Example.isinstance Example.View_new Example.onurl
      Example.ondestroy Example.oncreate Example.render
      Example.ddp_urlpatterns Example.server_methods
      (Example.loads (Example.request "2" "method"
                        (VDict [("name", VStr "echo");
                                ("params", VStr "hello")])))
      Example.repr Example.channel_name "{'_id': '2', 'type': 'method', ...}"
      Example.connected in
  sent (trace (snd out)) = sent (trace Example.connected)
  \/ (exists data _id m,
        Example.loads (Example.request "2" "method"
                         (VDict [("name", VStr "echo");
                                 ("params", VStr "hello")]))
          "{'_id': '2', 'type': 'method', ...}" = Return data
        /\ getitem data "_id" = Return _id
        /\ fst out = Return tt
        /\ sent (trace (snd out)) = sent (trace Example.connected) ++ [m]
        /\ getitem m "_id" = Return _id).
Proof.
  intros out.
  apply (receive_one_response_at_most Example.isinstance Example.View_new
           Example.onurl Example.ondestroy Example.oncreate Example.render
           Example.ddp_urlpatterns Example.server_methods _ Example.repr
           Example.channel_name _ (fst out) Example.connected (snd out)).
  reflexivity.
Defined.

Lemma recv_method_not_found_witness :
  recv_method Example.server_methods Example.repr
    (Example.request "2" "method" (VDict [("name", VStr "drop")]))
    Example.connected
  = (Return tt,
     {| store := store Example.connected; view := view Example.connected;
        trace := trace Example.connected ++
          [Send (envelope (VStr "2") "Error"
                   (error_params "Not found" "Method drop not found"))] |}).
Proof.
  apply (recv_method_not_found Example.server_methods Example.repr _
           (VStr "2") (VDict [("name", VStr "drop")]) "drop");
    reflexivity.
Defined.

Lemma recv_method_name_not_a_string_witness :
  recv_method Example.server_methods Example.repr
    (Example.request "2" "method" (VDict [("name", VInt 5)]))
    Example.connected
  = (Raise TypeError, Example.connected).
Proof.
  apply (recv_method_name_not_a_string Example.server_methods Example.repr _
           (VStr "2") (VDict [("name", VInt 5)]) (VInt 5));
    try reflexivity.
  discriminate.
Defined.

Lemma recv_geturl_no_match_witness :
  recv_geturl Example.isinstance Example.View_new Example.onurl
    Example.ondestroy Example.oncreate Example.render
    Example.ddp_urlpatterns Example.channel_name
    (Example.request "6" "geturl" (VDict [("url", VStr "/nowhere")]))
    Example.viewing
  = (Return tt, Example.viewing).
Proof.
  apply (recv_geturl_no_match Example.isinstance Example.View_new
           Example.onurl Example.ondestroy Example.oncreate Example.render
           Example.ddp_urlpatterns Example.channel_name _
           (VDict [("url", VStr "/nowhere")]) "/nowhere");
    try reflexivity.
  repeat constructor.
Defined.

Lemma geturl_loop_first_match_witness :
  geturl_loop Example.isinstance Example.View_new Example.onurl
    Example.ondestroy Example.oncreate Example.render Example.channel_name
    (Example.request "6" "geturl" (VDict [("url", VStr "/about")]))
    (VStr "/about") Example.ddp_urlpatterns Example.connected
  = geturl_loop Example.isinstance Example.View_new Example.onurl
      Example.ondestroy Example.oncreate Example.render Example.channel_name
      (Example.request "6" "geturl" (VDict [("url", VStr "/about")]))
      (VStr "/about")
      [ {| pattern := String.prefix "/about"; callback := "AboutView" |} ]
      Example.connected.
Proof.
  apply (geturl_loop_first_match Example.isinstance Example.View_new
           Example.onurl Example.ondestroy Example.oncreate Example.render
           Example.channel_name _ "/about" []
           [ {| pattern := String.prefix "/tasks"; callback := "TaskView" |} ]
           {| pattern := String.prefix "/about"; callback := "AboutView" |});
    [constructor | reflexivity].
Defined.

Lemma recv_geturl_first_view_witness :
  recv_geturl Example.isinstance Example.View_new Example.onurl
    Example.ondestroy Example.oncreate Example.render
    Example.ddp_urlpatterns Example.channel_name
    (Example.request "6" "geturl" (VDict [("url", VStr "/tasks/1")]))
    Example.connected
  = (Return tt,
     {| store := store Example.connected;
        view := Some ("TaskView", "/tasks/1");
        trace := trace Example.connected ++
          [CallNew "TaskView" "c1"; CallOncreate (VStr "/tasks/1");
           CallRender;
           Send (envelope (VStr "6") "Success"
                   (VStr "<main>/tasks/1</main>"))] |}).
Proof.
  apply (recv_geturl_first_view Example.isinstance Example.View_new
           Example.onurl Example.ondestroy Example.oncreate Example.render
           Example.ddp_urlpatterns Example.channel_name _
           (VStr "6") (VDict [("url", VStr "/tasks/1")])
           (VStr "<main>/tasks/1</main>") "/tasks/1"
           [ {| pattern := String.prefix "/about";
                callback := "AboutView" |} ]
           []
           {| pattern := String.prefix "/tasks"; callback := "TaskView" |}
           ("TaskView", "") ("TaskView", "/tasks/1") ("TaskView", "/tasks/1")
           (store Example.connected) (store Example.connected)
           (store Example.connected));
    try reflexivity.
  repeat constructor.
Defined.

Lemma recv_geturl_replaces_view_witness :
  recv_geturl Example.isinstance Example.View_new Example.onurl
    Example.ondestroy Example.oncreate Example.render
    Example.ddp_urlpatterns Example.channel_name
    (Example.request "6" "geturl" (VDict [("url", VStr "/about")]))
    Example.viewing
  = (Return tt,
     {| store := store Example.viewing;
        view := Some ("AboutView", "/about");
        trace := trace Example.viewing ++
          [CallOndestroy; CallNew "AboutView" "c1";
           CallOncreate (VStr "/about"); CallRender;
           Send (envelope (VStr "6") "Success"
                   (VStr "<main>/about</main>"))] |}).
Proof.
  apply (recv_geturl_replaces_view Example.isinstance Example.View_new
           Example.onurl Example.ondestroy Example.oncreate Example.render
           Example.ddp_urlpatterns Example.channel_name _
           (VStr "6") (VDict [("url", VStr "/about")])
           (VStr "<main>/about</main>") "/about" []
           [ {| pattern := String.prefix "/tasks"; callback := "TaskView" |} ]
           {| pattern := String.prefix "/about"; callback := "AboutView" |}
           ("TaskView", "/tasks") ("TaskView", "/tasks")
           ("AboutView", "") ("AboutView", "/about") ("AboutView", "/about")
           (store Example.viewing) (store Example.viewing)
           (store Example.viewing) (store Example.viewing));
    try reflexivity.
  constructor.
Defined.

Lemma recv_geturl_oncreate_raises_witness :
  recv_geturl Example.isinstance Example.View_new Example.onurl
    Example.ondestroy Example.oncreate_failing Example.render
    Example.ddp_urlpatterns Example.channel_name
    (Example.request "6" "geturl" (VDict [("url", VStr "/about")]))
    Example.viewing
  = (Raise (Failure "ValueError"),
     {| store := store Example.viewing;
        view := Some ("AboutView", "/about");
        trace := trace Example.viewing ++
          [CallOndestroy; CallNew "AboutView" "c1";
           CallOncreate (VStr "/about")] |}).
Proof.
  apply (recv_geturl_oncreate_raises Example.isinstance Example.View_new
           Example.onurl Example.ondestroy Example.oncreate_failing
           Example.render Example.ddp_urlpatterns Example.channel_name _
           (VDict [("url", VStr "/about")]) "/about" []
           [ {| pattern := String.prefix "/tasks"; callback := "TaskView" |} ]
           {| pattern := String.prefix "/about"; callback := "AboutView" |}
           ("TaskView", "/tasks") ("TaskView", "/tasks")
           ("AboutView", "") ("AboutView", "/about")
           (store Example.viewing) (store Example.viewing)
           (store Example.viewing));
    try reflexivity.
  constructor.
Defined.

Lemma recv_subscribe_unknown_publication_witness :
  recv_subscribe Example.repr Example.channel_name
    (Example.request "1" "subscribe"
       (VDict [("name", VStr "users"); ("_id", VStr "root")]))
    Example.connected
  = (Raise DoesNotExist, Example.connected).
Proof.
  apply (recv_subscribe_unknown_publication Example.repr
           Example.channel_name _ (VStr "1") (VStr "users") (VStr "root")
           [("name", VStr "users"); ("_id", VStr "root")] Example.client);
    try reflexivity.
  right. vm_compute. reflexivity.
Defined.

Lemma recv_subscribe_params_not_an_object_witness :
  let data := Example.request "1" "subscribe" (VStr "name_id") in
  recv_subscribe Example.repr Example.channel_name data Example.connected
  = (Raise TypeError, Example.connected)
  \/ exists key,
       (key = "name" \/ key = "_id")
       /\ recv_subscribe Example.repr Example.channel_name data
            Example.connected =
          (Return tt,
           {| store := store Example.connected;
              view := view Example.connected;
              trace := trace Example.connected ++
                [Send (envelope (VStr "1") "Error"
                         (error_params "Bad format"
                            ("Subscription " +:+ key +:+ " not found")))] |}).
Proof.
  apply (recv_subscribe_params_not_an_object Example.repr
           Example.channel_name _ (VStr "1") (VStr "name_id")
           Example.client);
    [reflexivity | reflexivity | discriminate | vm_compute; reflexivity].
Defined.

Lemma handle_ddp_frame_witness :
  let out := handle_ddp (inserted_event (VStr "t1")) Example.subscribed in
  store (snd out) = store Example.subscribed
  /\ view (snd out) = view Example.subscribed
  /\ (trace (snd out) = trace Example.subscribed
      \/ exists type params,
           fst out = Return tt
           /\ In type ["insert"; "change"; "remove"]
           /\ trace (snd out) =
              trace Example.subscribed ++ [Send (ddp type params)]).
Proof.
  intros out.
  apply (handle_ddp_frame (inserted_event (VStr "t1")) (fst out)
           Example.subscribed (snd out)).
  reflexivity.
Defined.

Lemma handle_ddp_missing_payload_witness :
  handle_ddp (VDict [("type", VStr "handle.ddp");
                     ("params", VDict [("type", VStr "removed");
                                       ("_id", VStr "t1")])])
    Example.subscribed
  = (Raise (KeyError (VStr "parent")), Example.subscribed).
Proof.
  apply (handle_ddp_missing_payload _
           [("type", VStr "removed"); ("_id", VStr "t1")] (VStr "removed"));
    [reflexivity | reflexivity |].
  right. right. repeat split; discriminate.
Defined.

Lemma connect_registers_the_channel_witness :
  let sk := {| accepted := false; consumer := Example.unknown_channel |} in
  let row := {| client_channel := "c1"; client_user := Some 7 |} in
  exists sk',
    connect Example.channel_name Example.get_user sk = (Return tt, sk')
    /\ accepted sk' = true
    /\ clients (store (consumer sk')) !! Example.channel_name = Some row
    /\ (forall ch, ch <> Example.channel_name ->
        clients (store (consumer sk')) !! ch
        = clients (store Example.unknown_channel) !! ch)
    /\ subscriptions (store (consumer sk'))
       = subscriptions (store Example.unknown_channel)
    /\ view (consumer sk') = view Example.unknown_channel
    /\ trace (consumer sk') =
         trace Example.unknown_channel
         ++ [Send (VDict [("type", VStr "Connected")])]
    /\ Clients_get Example.channel_name (consumer sk')
       = (Return row, consumer sk').
Proof.
  intros sk row.
  apply (connect_registers_the_channel Example.channel_name
           Example.get_user sk (User 7)
           (store Example.unknown_channel)).
  reflexivity.
Defined.

Lemma session_leaves_no_subscription_witness :
  let sk := {| accepted := false; consumer := Example.unknown_channel |} in
  let data := Example.request "1" "subscribe"
                (VDict [("name", VStr "tasks"); ("_id", VStr "root")]) in
  exists sk1 st2 st3,
    connect Example.channel_name Example.get_user sk = (Return tt, sk1)
    /\ recv_subscribe Example.repr Example.channel_name data (consumer sk1)
       = (Return tt, st2)
    /\ disconnect Example.channel_name VNone st2 = (Return tt, st3)
    /\ length (subscriptions (store st2)) = 1%nat
    /\ subscriptions (store st3) = []
    /\ clients (store st3)
       = delete Example.channel_name
           (clients (store Example.unknown_channel))
    /\ sent (trace st3) =
         [VDict [("type", VStr "Connected")];
          envelope (VStr "1") "Success"
            (VDict [("name", VStr "tasks"); ("sub_id", VInt 1)])].
Proof.
  intros sk data.
  apply (session_leaves_no_subscription Example.repr Example.channel_name
           Example.get_user sk (User 7) data (VStr "1") (VStr "tasks")
           (VStr "root") VNone
           [("name", VStr "tasks"); ("_id", VStr "root")] Example.tasks);
    try reflexivity.
  all: first [discriminate | constructor].
Defined.
